(** * SB16 driver: a shallow embedding of [sb16_driver.c]

    The driver talks to the card through port I/O and keeps two global
    flags.  Here the card is a function from the history of the bus to the
    byte it answers with, the globals and the bus history form the [world],
    and every driver function is a computation over that world.  The busy
    waits of the source have no bound of their own, so they are run with an
    iteration bound and report [Hang] when it is exceeded. *)

From Stdlib Require Import ZArith List Lia Bool.
From Stdlib.Strings Require Import Byte.
Import ListNotations.
Local Open Scope Z_scope.

(** ** Machine integers *)

Definition u8 (z : Z) : Z := z mod 2 ^ 8.
Definition u16 (z : Z) : Z := z mod 2 ^ 16.
Definition u32 (z : Z) : Z := z mod 2 ^ 32.
(** Two's complement reading of the low 32 bits ([int], [int32_t]). *)
Definition sint32 (z : Z) : Z := (z + 2 ^ 31) mod 2 ^ 32 - 2 ^ 31.

Definition byte_val (b : byte) : Z := Z.of_N (Byte.to_N b).

(** ** Constants of [sb16.h]

    The header file is not part of the repository.  The constants whose
    value the repository or its specification gives are defined here; the
    others (port numbers, opcodes, header offsets, the poll budget, the
    address of the static buffer) are the fields of [sb16_h]. *)

(** [user_level_program.c] defines the same three macros; it reaches the
    second half of the buffer at [init_retval + BUF_SIZE], so the two files
    have to agree on them. *)
Definition BUF_SIZE : Z := 65536 / 2.
Definition BUF_DIM : Z := 2.
Definition FOUR_B : nat := 4.

(** Modelled from the spec: [TWOTO16], [_16BITS] and [NCHANNELS] are missing
    with [sb16.h]; the offset is taken "mod 65536", the page is
    "base >> 16", "bits-per-sample must equal 16" and "channel count must
    equal 2". *)
Definition TWOTO16 : Z := 65536.
Definition _16BITS : Z := 16.
Definition NCHANNELS : Z := 2.

Record sb16_h : Type := {
  SB16_IRQ_LINE : Z;
  SB16_RESET_PORT : Z;
  SB16_READ_PORT : Z;
  SB16_WRITE_PORT : Z;
  SB16_POLL_PORT : Z;
  SB16_POLL_PORT_16 : Z;
  SUCCESS_VAL : Z;
  BUF_RDY_VAL : Z;
  WAITLOOP : Z;
  DSP_OUT_RATE_CMD : Z;
  DSP_BCOMMAND : Z;
  DSP_BMODE : Z;
  DMA_MASK_PORT : Z;
  DMA_CLR_PTR_PORT : Z;
  DMA_MODE_PORT : Z;
  DMA_BASE_ADDR : Z;
  DMA_COUNT_PORT : Z;
  DMA_PAGE_PORT : Z;
  DMA_STOP_MASK : Z;
  DMA_START_MASK : Z;
  DMA_MODE : Z;
  WAV_MAGIC : Z;
  WAV_MAGIC_LOC : nat;
  WAV_FORMAT_LOC : nat;
  WAV_NCHANNELS_LOC : nat;
  SAMPLE_RATE_LOC : nat;
  BPSAMPLE_LOC : nat;
  (** [(uint32_t)buffer], the address the linker gave the static buffer. *)
  buffer : Z
}.

(** ** The world: globals and bus history *)

(** The six diagnostics [sb16_init] prints, in the order of the source. *)
Inductive message : Type :=
| MsgInUse          (* "Another process is using the SB16. ..." *)
| MsgResetFailed    (* "SB16 initialization failed. Check hardware." *)
| MsgInfoInvalid    (* "Info block invalid." *)
| MsgNotWav         (* "Not a wav file." *)
| MsgCompressed     (* "Only uncompressed music is supported." *)
| MsgNot16Stereo.   (* "Only 16-bit stereo audio is supported." *)

Inductive event : Type :=
| EnableIrq (line : Z)
| SendEoi (line : Z)
| Cli
| Sti
| Outb (val port : Z)
| Inb (port val : Z)
| Printf (m : message).

Record world : Type := {
  in_use : Z;
  int_flag : Z;
  trace : list event
}.

(** The globals as the source initialises them. *)
Definition boot : world := {| in_use := 0; int_flag := 1; trace := [] |}.

(** A card answers a port read from what has happened on the bus so far. *)
Definition device : Type := list event -> Z -> Z.

Inductive outcome (A : Type) : Type :=
| Done (a : A) (w : world)
| Hang
| Fault.
Arguments Done {A} a w.
Arguments Hang {A}.
Arguments Fault {A}.

Definition M (A : Type) : Type := world -> outcome A.

Definition ret {A} (a : A) : M A := fun w => Done a w.

Definition bind {A B} (m : M A) (f : A -> M B) : M B :=
  fun w => match m w with
           | Done a w' => f a w'
           | Hang => Hang
           | Fault => Fault
           end.

Declare Scope drv_scope.
Delimit Scope drv_scope with drv.
Notation "x <- m ;; k" := (bind m (fun x => k))
  (at level 100, m at next level, right associativity) : drv_scope.
Notation "m ;; k" := (bind m (fun _ => k))
  (at level 100, right associativity) : drv_scope.
Local Open Scope drv_scope.

Definition emit (e : event) : M unit :=
  fun w => Done tt {| in_use := in_use w; int_flag := int_flag w;
                      trace := trace w ++ [e] |}.

Definition get_in_use : M Z := fun w => Done (in_use w) w.
Definition get_int_flag : M Z := fun w => Done (int_flag w) w.
Definition set_in_use (v : Z) : M unit :=
  fun w => Done tt {| in_use := v; int_flag := int_flag w; trace := trace w |}.
Definition set_int_flag (v : Z) : M unit :=
  fun w => Done tt {| in_use := in_use w; int_flag := v; trace := trace w |}.

(** A read through the caller's pointer; [None] is a read past the block. *)
Definition lift {A} (o : option A) : M A :=
  fun w => match o with Some a => Done a w | None => Fault end.

(** ** Reading the header block *)

Definition load8 (blk : list byte) (off : nat) : option Z :=
  option_map byte_val (nth_error blk off).

(** [*((uint16_t* )(p + off))] on a little-endian machine. *)
Definition load16 (blk : list byte) (off : nat) : option Z :=
  match load8 blk off, load8 blk (S off) with
  | Some lo, Some hi => Some (lo + 256 * hi)
  | _, _ => None
  end.

(** The [n] bytes [memcpy] takes from [blk + off]. *)
Definition memcpy (blk : list byte) (off n : nat) : option (list byte) :=
  if (off + n <=? length blk)%nat then Some (firstn n (skipn off blk)) else None.

(** [*((uint32_t* )p)] on a little-endian machine. *)
Fixpoint le_val (bs : list byte) : Z :=
  match bs with
  | [] => 0
  | b :: bs' => byte_val b + 256 * le_val bs'
  end.
Definition load32 (bs : list byte) : Z := le_val (firstn 4 bs).

Fixpoint strlen (s : list byte) : nat :=
  match s with
  | [] => O
  | b :: s' => if Byte.eqb b x00 then O else S (strlen s')
  end.

(** Modelled from the spec: [strrev] belongs to the kernel's library, which
    is not in the repository.  The container tag "is stored byte-reversed
    [...] and must be un-reversed before comparison"; [strrev] does it on a
    C string, so it reverses the bytes in front of the first NUL and leaves
    the rest where it is. *)
Definition strrev (s : list byte) : list byte :=
  rev (firstn (strlen s) s) ++ skipn (strlen s) s.

(** ** Byte punning of a 16-bit word *)

(** [*((uint16_t* )word_ptr) = word] on a little-endian machine. *)
Definition store16 (word : Z) : list Z := [u16 word mod 256; u16 word / 256].

Definition lo_byte (word : Z) : Z := nth 0 (store16 word) 0.
Definition hi_byte (word : Z) : Z := nth 1 (store16 word) 0.

(** ** Buffer placement, as [sb16_init] computes it *)

(** [buf_offset = ((uint32_t)buffer >> 1) % TWOTO16], a [uint16_t]. *)
Definition buf_offset (A : Z) : Z := u16 (Z.shiftr (u32 A) 1 mod TWOTO16).
(** [buf_page = (uint32_t)buffer >> _16BITS], a [uint8_t]. *)
Definition buf_page (A : Z) : Z := u8 (Z.shiftr (u32 A) _16BITS).

Section Driver.

Variable h : sb16_h.
Variable card : device.
(** Bound on the iterations of each busy wait. *)
Variable fuel : nat.

(** *** Port access and the interrupt controller (external) *)

Definition outb (val port : Z) : M unit := emit (Outb val port).

Definition inb (port : Z) : M Z :=
  fun w => let v := u8 (card (trace w) port) in
           bind (emit (Inb port v)) (fun _ => ret v) w.

Definition enable_irq (line : Z) : M unit := emit (EnableIrq line).
Definition send_eoi (line : Z) : M unit := emit (SendEoi line).
Definition cli : M unit := emit Cli.
Definition sti : M unit := emit Sti.
Definition printf (m : message) : M unit := emit (Printf m).

(** *** dsp_read *)

(** [while (!(inb(SB16_POLL_PORT) & BUF_RDY_VAL));] *)
Fixpoint dsp_read_wait (n : nat) : M unit :=
  match n with
  | O => fun _ => Hang
  | S n' =>
      v <- inb (SB16_POLL_PORT h) ;;
      if Z.land v (BUF_RDY_VAL h) =? 0 then dsp_read_wait n' else ret tt
  end.

Definition dsp_read : M Z :=
  dsp_read_wait fuel ;;
  v <- inb (SB16_READ_PORT h) ;;
  ret (u8 v).

(** *** dsp_write *)

(** [while (inb(SB16_WRITE_PORT) & BUF_RDY_VAL);] *)
Fixpoint dsp_write_wait (n : nat) : M unit :=
  match n with
  | O => fun _ => Hang
  | S n' =>
      v <- inb (SB16_WRITE_PORT h) ;;
      if Z.land v (BUF_RDY_VAL h) =? 0 then ret tt else dsp_write_wait n'
  end.

Definition dsp_write (command : Z) : M unit :=
  dsp_write_wait fuel ;;
  outb (u8 command) (SB16_WRITE_PORT h).

(** *** sb16_reset *)

(** [while ((dsp_read() != SUCCESS_VAL) && i--);] and the value of [i]
    when the loop is left.  [&&] does not touch [i] once the ready byte
    is read; otherwise [i--] is tested and then decremented, also on the
    test that ends the loop. *)
Fixpoint sb16_reset_poll (n : nat) (i : Z) : M Z :=
  match n with
  | O => fun _ => Hang
  | S n' =>
      v <- dsp_read ;;
      if v =? SUCCESS_VAL h then ret i
      else if i =? 0 then ret (sint32 (i - 1))
      else sb16_reset_poll n' (sint32 (i - 1))
  end.

(** The delay loop [for (i = 0; i < TWOTO16; i++) asm volatile("");]
    touches neither the bus nor the globals and is left out. *)
Definition sb16_reset : M Z :=
  outb 1 (SB16_RESET_PORT h) ;;
  outb 0 (SB16_RESET_PORT h) ;;
  i <- sb16_reset_poll fuel (sint32 (WAITLOOP h)) ;;
  ret (sint32 (i - 1)).

(** *** dsp_init *)

Definition dsp_init (sample_rate bcommand bmode block_length : Z) : M unit :=
  dsp_write (DSP_OUT_RATE_CMD h) ;;
  dsp_write (hi_byte sample_rate) ;;
  dsp_write (lo_byte sample_rate) ;;
  dsp_write bcommand ;;
  dsp_write bmode ;;
  dsp_write (lo_byte block_length) ;;
  dsp_write (hi_byte block_length).

(** *** dma_init *)

Definition dma_init (buf_offset buf_length buf_page : Z) : M unit :=
  outb (DMA_STOP_MASK h) (DMA_MASK_PORT h) ;;
  outb 0 (DMA_CLR_PTR_PORT h) ;;
  outb (DMA_MODE h) (DMA_MODE_PORT h) ;;
  outb (lo_byte buf_offset) (DMA_BASE_ADDR h) ;;
  outb (hi_byte buf_offset) (DMA_BASE_ADDR h) ;;
  outb (lo_byte buf_length) (DMA_COUNT_PORT h) ;;
  outb (hi_byte buf_length) (DMA_COUNT_PORT h) ;;
  outb buf_page (DMA_PAGE_PORT h) ;;
  outb (DMA_START_MASK h) (DMA_MASK_PORT h).

(** *** sb16_init *)

(** [info_block] is [None] for the null pointer. *)
Definition sb16_init (info_block : option (list byte)) : M Z :=
  enable_irq (SB16_IRQ_LINE h) ;;
  busy <- get_in_use ;;
  if negb (busy =? 0) then printf MsgInUse ;; ret (-1) else
  r <- sb16_reset ;;
  if r =? -1 then printf MsgResetFailed ;; ret (-1) else
  match info_block with
  | None => printf MsgInfoInvalid ;; ret (-1)
  | Some blk =>
      tag <- lift (memcpy blk (WAV_MAGIC_LOC h) FOUR_B) ;;
      let wav_check := strrev (tag ++ [x00]) in
      if negb (load32 wav_check =? WAV_MAGIC h) then printf MsgNotWav ;; ret (-1) else
      format <- lift (load16 blk (WAV_FORMAT_LOC h)) ;;
      if negb (format =? 1) then printf MsgCompressed ;; ret (-1) else
      nchannels <- lift (load16 blk (WAV_NCHANNELS_LOC h)) ;;
      if negb (nchannels =? NCHANNELS) then printf MsgNot16Stereo ;; ret (-1) else
      bpsample <- lift (load16 blk (BPSAMPLE_LOC h)) ;;
      if negb (bpsample =? _16BITS) then printf MsgNot16Stereo ;; ret (-1) else
      sample_rate <- lift (load16 blk (SAMPLE_RATE_LOC h)) ;;
      dma_init (buf_offset (buffer h)) (u16 (BUF_SIZE - 1)) (buf_page (buffer h)) ;;
      dsp_init sample_rate (u8 (DSP_BCOMMAND h)) (u8 (DSP_BMODE h))
               (u16 (BUF_SIZE / BUF_DIM - 1)) ;;
      set_in_use 1 ;;
      set_int_flag 1 ;;
      ret (sint32 (buffer h))
  end.

(** *** sb16_copy_status *)

Definition sb16_copy_status : M Z := get_int_flag.

(** *** sb16_shutdown *)

Definition sb16_shutdown : M Z :=
  sb16_reset ;;
  set_in_use 0 ;;
  set_int_flag 1 ;;
  ret 0.

(** *** sb16_interrupt *)

(** [pushal] and [popal; leave; iret] save and restore the interrupted
    context; they touch neither the bus nor the globals. *)
Definition sb16_interrupt : M unit :=
  cli ;;
  flag <- get_int_flag ;;
  set_int_flag (if flag =? 0 then 1 else 0) ;;
  inb (SB16_POLL_PORT_16 h) ;;
  send_eoi (SB16_IRQ_LINE h) ;;
  sti.

End Driver.

(** ** A concrete card and header for the examples

    [sb16.h] being absent, the examples run with the constants of a Sound
    Blaster 16 jumpered to base 0x220 on 16-bit DMA channel 5 and with the
    offsets of the canonical 44-byte RIFF/WAVE header.  The poll budget is
    kept small so that the runs stay readable.  Nothing but the examples
    depends on these values. *)
Definition sb16_at_220 : sb16_h := {|
  SB16_IRQ_LINE := 5;
  SB16_RESET_PORT := 0x226;
  SB16_READ_PORT := 0x22A;
  SB16_WRITE_PORT := 0x22C;
  SB16_POLL_PORT := 0x22E;
  SB16_POLL_PORT_16 := 0x22F;
  SUCCESS_VAL := 0xAA;
  BUF_RDY_VAL := 0x80;
  WAITLOOP := 3;
  DSP_OUT_RATE_CMD := 0x41;
  DSP_BCOMMAND := 0xB6;
  DSP_BMODE := 0x30;
  DMA_MASK_PORT := 0xD4;
  DMA_CLR_PTR_PORT := 0xD8;
  DMA_MODE_PORT := 0xD6;
  DMA_BASE_ADDR := 0xC4;
  DMA_COUNT_PORT := 0xC6;
  DMA_PAGE_PORT := 0x8B;
  DMA_STOP_MASK := 0x05;
  DMA_START_MASK := 0x01;
  DMA_MODE := 0x59;
  WAV_MAGIC := 0x57415645;
  WAV_MAGIC_LOC := 8;
  WAV_FORMAT_LOC := 20;
  WAV_NCHANNELS_LOC := 22;
  SAMPLE_RATE_LOC := 24;
  BPSAMPLE_LOC := 34;
  buffer := 0x130000
|}.

(** How often the read port has been read so far. *)
Definition reads_so_far (t : list event) : nat :=
  length (filter (fun e => match e with
                           | Inb port _ => port =? 0x22A
                           | _ => false
                           end) t).

(** A card that always has a byte to read and is always ready to be
    written; what the read port answers on its [n]-th read is [answer n]. *)
Definition card_answering (answer : nat -> Z) : device :=
  fun t port =>
    if port =? 0x22A then answer (S (reads_so_far t))
    else if port =? 0x22C then 0x00
    else 0xFF.

(** Ready at once after a reset. *)
Definition card_ready : device := card_answering (fun _ => 0xAA).
(** Never acknowledges a reset. *)
Definition card_mute : device := card_answering (fun _ => 0x00).
(** Acknowledges on the [k]-th read of the read port and not before. *)
Definition card_late (k : nat) : device :=
  card_answering (fun n => if (n =? k)%nat then 0xAA else 0x00).

(** A 44-byte header with the first tag byte, the format code, the channel
    count, the sample rate and the bit depth left open. *)
Definition wav_header (t0 format nchannels rate_lo rate_hi bits : byte) : list byte :=
  [x52; x49; x46; x46;  x24; x08; x00; x00;  t0; x41; x56; x45;
   x66; x6d; x74; x20;  x10; x00; x00; x00;  format; x00;  nchannels; x00;
   rate_lo; rate_hi; x00; x00;  x10; xb1; x02; x00;  x04; x00;  bits; x00;
   x64; x61; x74; x61;  x00; x08; x00; x00].

(** 16-bit stereo PCM at 44100 Hz. *)
Definition cd_header : list byte := wav_header x57 x01 x02 x44 xac x10.


(** The world in which the example card plays [cd_header] after boot. *)
Definition cd_playing : world := {|
  in_use := 1;
  int_flag := 1;
  trace :=
    [ EnableIrq 5; Outb 1 0x226; Outb 0 0x226; Inb 0x22E 0xFF; Inb 0x22A 0xAA;
      Outb 0x05 0xD4; Outb 0 0xD8; Outb 0x59 0xD6; Outb 0x00 0xC4; Outb 0x80 0xC4;
      Outb 0xFF 0xC6; Outb 0x7F 0xC6; Outb 0x13 0x8B; Outb 0x01 0xD4;
      Inb 0x22C 0; Outb 0x41 0x22C; Inb 0x22C 0; Outb 0xAC 0x22C;
      Inb 0x22C 0; Outb 0x44 0x22C; Inb 0x22C 0; Outb 0xB6 0x22C;
      Inb 0x22C 0; Outb 0x30 0x22C; Inb 0x22C 0; Outb 0xFF 0x22C;
      Inb 0x22C 0; Outb 0x3F 0x22C ]
|}.
(** ** Vocabulary of the statements *)

(** The world after some more bus events; the globals stay. *)
Definition extend (w : world) (evs : list event) : world :=
  {| in_use := in_use w; int_flag := int_flag w; trace := trace w ++ evs |}.

(** The port writes of a stretch of bus history, as (value, port), oldest
    first. *)
Fixpoint writes (evs : list event) : list (Z * Z) :=
  match evs with
  | [] => []
  | Outb val port :: evs' => (val, port) :: writes evs'
  | _ :: evs' => writes evs'
  end.

(** A computation that only talks on the bus: whenever it returns, the
    globals are as before and the events it added satisfy [Q]. *)
Definition bus_only {A} (m : M A) (Q : A -> list event -> Prop) : Prop :=
  forall w a w', m w = Done a w' -> exists evs, w' = extend w evs /\ Q a evs.

(** The poll budget fits an [int] and the iteration bound of the model
    lets the polling loop of [sb16_reset] run to its end. *)
Definition budget_ok (h : sb16_h) (fuel : nat) : Prop :=
  0 <= WAITLOOP h < 2 ^ 31 /\ (Z.to_nat (WAITLOOP h) < fuel)%nat.

Section Polls.

Variable h : sb16_h.
Variable card : device.
Variable fuel : nat.

(** [k] polls in a row, each of them a completed [dsp_read] that brought
    something else than the ready byte, lead from [w] to [w']. *)
Fixpoint polls_fail (k : nat) (w w' : world) : Prop :=
  match k with
  | O => w' = w
  | S k' => exists v w1, dsp_read h card fuel w = Done v w1 /\
                         v <> SUCCESS_VAL h /\ polls_fail k' w1 w'
  end.

(** The ready byte arrives on poll [k], counted from 1, and not before. *)
Definition first_ready (k : nat) (w w' : world) : Prop :=
  exists wk, (1 <= k)%nat /\ polls_fail (Nat.pred k) w wk /\
             dsp_read h card fuel wk = Done (SUCCESS_VAL h) w'.

(** The world in which the polling starts: the reset line was raised and
    lowered. *)
Definition pulsed (w : world) : world :=
  extend w [Outb 1 (SB16_RESET_PORT h); Outb 0 (SB16_RESET_PORT h)].

(** The card answers every wait for a byte, respectively every wait for
    write readiness, within the iteration bound. *)
Definition reads_complete : Prop :=
  forall w, dsp_read_wait h card fuel w <> Hang.
Definition writes_complete : Prop :=
  forall w, dsp_write_wait h card fuel w <> Hang.

(** What [sb16_init] goes on to do once the header has passed its checks,
    given the sample rate read from the header. *)
Definition start_playback (sample_rate : Z) : M Z :=
  dma_init h (buf_offset (buffer h)) (u16 (BUF_SIZE - 1)) (buf_page (buffer h)) ;;
  dsp_init h card fuel sample_rate (u8 (DSP_BCOMMAND h)) (u8 (DSP_BMODE h))
           (u16 (BUF_SIZE / BUF_DIM - 1)) ;;
  set_in_use 1 ;;
  set_int_flag 1 ;;
  ret (sint32 (buffer h)).

(** [n] interrupts in a row. *)
Fixpoint interrupts (n : nat) : M unit :=
  match n with
  | O => ret tt
  | S n' => sb16_interrupt h card ;; interrupts n'
  end.

(** [PlaybackStatus] as the consumer sees it after [n] interrupts. *)
Definition status_after (n : nat) (w : world) : option Z :=
  match (interrupts n ;; sb16_copy_status) w with
  | Done s _ => Some s
  | _ => None
  end.

End Polls.

(** The fields of the header that [sb16_init] looks at. *)
Record wav_fields : Type := {
  f_tag : list byte;
  f_format : Z;
  f_nchannels : Z;
  f_bpsample : Z;
  f_sample_rate : Z
}.

(** All five fields lie inside the block. *)
Definition parse (h : sb16_h) (blk : list byte) : option wav_fields :=
  match memcpy blk (WAV_MAGIC_LOC h) FOUR_B,
        load16 blk (WAV_FORMAT_LOC h),
        load16 blk (WAV_NCHANNELS_LOC h),
        load16 blk (BPSAMPLE_LOC h),
        load16 blk (SAMPLE_RATE_LOC h) with
  | Some t, Some f, Some n, Some b, Some r =>
      Some {| f_tag := t; f_format := f; f_nchannels := n;
              f_bpsample := b; f_sample_rate := r |}
  | _, _, _, _, _ => None
  end.

(** The container tag passes the comparison of [sb16_init]. *)
Definition tag_ok (h : sb16_h) (f : wav_fields) : Prop :=
  load32 (strrev (f_tag f ++ [x00])) = WAV_MAGIC h.

(** The tag read as a big-endian number, first byte most significant. *)
Definition be_val (bs : list byte) : Z := le_val (rev bs).

(** The verdict on a header in the order the specification gives to the
    checks: format code, channel count, bit depth, container tag. *)
Definition claimed_verdict (h : sb16_h) (f : wav_fields) : option message :=
  if negb (f_format f =? 1) then Some MsgCompressed
  else if negb (f_nchannels f =? 2) then Some MsgNot16Stereo
  else if negb (f_bpsample f =? 16) then Some MsgNot16Stereo
  else if negb (load32 (strrev (f_tag f ++ [x00])) =? WAV_MAGIC h) then Some MsgNotWav
  else None.

(** The diagnostic a run ended on, if it ended on one. *)
Definition last_message (w : world) : option message :=
  match rev (trace w) with
  | Printf m :: _ => Some m
  | _ => None
  end.

(** One half of the double buffer is one row of [buffer[BUF_DIM][BUF_SIZE]],
    a row of [int8_t]. *)
Definition bufferHalfBytes : Z := BUF_SIZE.

(** The DMA programming the specification describes: the page register is
    written before the count, and the count is
    [bufferHalfBytes * 2 - 1]. *)
Definition claimed_dma_writes (h : sb16_h) : list (Z * Z) :=
  let count := u16 (bufferHalfBytes * 2 - 1) in
  [ (DMA_STOP_MASK h, DMA_MASK_PORT h);
    (0, DMA_CLR_PTR_PORT h);
    (DMA_MODE h, DMA_MODE_PORT h);
    (lo_byte (buf_offset (buffer h)), DMA_BASE_ADDR h);
    (hi_byte (buf_offset (buffer h)), DMA_BASE_ADDR h);
    (buf_page (buffer h), DMA_PAGE_PORT h);
    (lo_byte count, DMA_COUNT_PORT h);
    (hi_byte count, DMA_COUNT_PORT h);
    (DMA_START_MASK h, DMA_MASK_PORT h) ].

(** Samples of 16 bits in one half of the buffer, both channels counted,
    and samples per channel in it. *)
Definition samples_per_half : Z := bufferHalfBytes / (_16BITS / 8).
Definition samples_per_channel_per_half : Z := samples_per_half / NCHANNELS.

(** The 16-bit word a low and a high byte stand for. *)
Definition word_of (lo hi : Z) : Z := lo + 256 * hi.

(** A buffer address the 16-bit DMA channel can express: inside the 16 MiB
    the page register reaches, and on a word boundary, since the channel
    counts words and the offset register holds the address divided by
    two. *)
Definition valid_buffer_address (A : Z) : Prop :=
  0 <= A < 2 ^ 24 /\ A mod 2 = 0.

(** The invariant the specification puts on the double buffer: its bytes
    do not cross a 64 KiB boundary. *)
Definition within_64k (A len : Z) : Prop :=
  A / 65536 = (A + len - 1) / 65536.

(** The physical address a 16-bit DMA channel puts on the bus: address
    lines 1 to 16 from the offset register, lines 17 to 23 from bits 1 to 7
    of the page register, line 0 low. *)
Definition dma16_address (offset page : Z) : Z :=
  Z.shiftl (Z.shiftr page 1) 17 + Z.shiftl offset 1.

(** ** The claims that do not hold, as the specification words them *)

(** The reset handshake has one budget of [B] polls: it returns a
    non-negative value exactly when the ready byte arrives within [B]
    polls, and a card that never acknowledges makes it fail after exactly
    [B] polls.  Stated for the example card at boot. *)
Definition claimed_reset_budget (B : nat) : Prop :=
  (forall card r w',
      sb16_reset sb16_at_220 card 5 boot = Done r w' ->
      (0 <= r <->
       exists k, (1 <= k <= B)%nat /\
                 first_ready sb16_at_220 card 5 k (pulsed sb16_at_220 boot) w')) /\
  (forall r w',
      sb16_reset sb16_at_220 card_mute 5 boot = Done r w' ->
      r < 0 /\ reads_so_far (trace w') = B).

(** A header that fails a check is rejected with the diagnostic which the
    claimed order of the checks selects. *)
Definition claimed_header_priority (h : sb16_h) (card : device) (fuel : nat) : Prop :=
  forall blk f w r w',
    in_use w = 0 -> parse h blk = Some f ->
    sb16_init h card fuel (Some blk) w = Done r w' ->
    claimed_verdict h f <> None ->
    r = -1 /\ last_message w' = claimed_verdict h f.

(** The block length that reaches the codec, the last two bytes written to
    it, is one less than the samples per channel in one half. *)
Definition claimed_block_length (h : sb16_h) (card : device) (fuel : nat) : Prop :=
  forall blk r w' pre lo hi,
    sb16_init h card fuel (Some blk) boot = Done r w' -> r <> -1 ->
    writes (trace w') = pre ++ [(lo, SB16_WRITE_PORT h); (hi, SB16_WRITE_PORT h)] ->
    word_of lo hi = samples_per_channel_per_half - 1.

(** ** Further vocabulary: cards that never answer, interrupt traffic *)

(** The poll port never shows a byte to read; the write port never shows
    the codec ready for a command. *)
Definition never_available (h : sb16_h) (card : device) : Prop :=
  forall t, Z.land (u8 (card t (SB16_POLL_PORT h))) (BUF_RDY_VAL h) = 0.
Definition never_writable (h : sb16_h) (card : device) : Prop :=
  forall t, Z.land (u8 (card t (SB16_WRITE_PORT h))) (BUF_RDY_VAL h) <> 0.

(** The bus traffic of one interrupt per element of [acks], the bytes the
    acknowledge reads brought. *)
Definition interrupt_events (h : sb16_h) (acks : list Z) : list event :=
  flat_map (fun v => [Cli; Inb (SB16_POLL_PORT_16 h) v;
                      SendEoi (SB16_IRQ_LINE h); Sti]) acks.

(** None of the four bytes of a 32-bit constant is zero. *)
Definition no_zero_byte (m : Z) : Prop :=
  m mod 256 <> 0 /\ (m / 256) mod 256 <> 0 /\
  (m / 65536) mod 256 <> 0 /\ (m / 16777216) mod 256 <> 0.

(** Two more cards for the examples: one that never answers anything, and
    one that acknowledges the reset but never becomes ready for a
    command. *)
Definition card_silent : device := fun _ _ => 0.
Definition card_deaf : device :=
  fun _ port => if port =? 0x22A then 0xAA else 0xFF.

(** The example card after [cd_playing] was shut down, and after a new
    call has enabled interrupts and reset the card again. *)
Definition cd_stopped : world := {|
  in_use := 0;
  int_flag := 1;
  trace := trace cd_playing ++
           [Outb 1 0x226; Outb 0 0x226; Inb 0x22E 0xFF; Inb 0x22A 0xAA]
|}.
Definition cd_reset_again : world :=
  extend cd_stopped [EnableIrq 5; Outb 1 0x226; Outb 0 0x226;
                     Inb 0x22E 0xFF; Inb 0x22A 0xAA].

(** A computation that only adds to the bus history. *)
Definition grows {A} (m : M A) : Prop :=
  forall w a w', m w = Done a w' -> exists evs, trace w' = trace w ++ evs.

(** A card that follows the protocol to the letter: once the reset line
    has been lowered it has one byte to read, the ready byte, and shows it
    on the poll port; when the byte has been read there is nothing more
    until the next reset.  [byte_pending] runs through the bus history,
    oldest event first. *)
Fixpoint byte_pending (t : list event) (pending : bool) : bool :=
  match t with
  | [] => pending
  | Outb val port :: t' =>
      byte_pending t' (if (val =? 0) && (port =? 0x226) then true else pending)
  | Inb port _ :: t' =>
      byte_pending t' (if port =? 0x22A then false else pending)
  | _ :: t' => byte_pending t' pending
  end.

Definition card_strict : device :=
  fun t port =>
    if port =? 0x22E then (if byte_pending t false then 0x80 else 0x00)
    else if port =? 0x22A then (if byte_pending t false then 0xAA else 0x00)
    else if port =? 0x22C then 0x00
    else 0xFF.

(** Two states away from boot: the example playback after one interrupt,
    busy with status 0; and an idle card whose status a stray interrupt
    has turned to 0. *)
Definition mid_session : world := {|
  in_use := 1;
  int_flag := 0;
  trace := trace cd_playing ++ [Cli; Inb 0x22F 0xFF; SendEoi 5; Sti]
|}.
Definition idle_toggled : world := {|
  in_use := 0;
  int_flag := 0;
  trace := [Cli; Inb 0x22F 0xFF; SendEoi 5; Sti]
|}.

(** * The consumer: a shallow embedding of [user_level_program.c]

    [main] sees the kernel only through system calls.  The kernel, with the
    file system, the driver behind the audio calls and the interrupts that
    arrive meanwhile, is a function from the calls made so far and the call
    being made to the value it returns; a run of [main] is the list of its
    calls with their results, and the way it ends. *)

(** [COPY_LEN] and [IBLOCK_SIZE] of [user_level_program.c]; [BUF_SIZE] and
    [BUF_DIM] are defined above with the same values. *)
Definition COPY_LEN : Z := 1024.
Definition IBLOCK_SIZE : Z := 44.

(** Where a read puts its bytes: the local [info_block], or an address made
    from an integer. *)
Inductive dest : Type :=
| ToInfoBlock
| ToAddress (a : Z).

(** The two texts [main] prints: "could not read arguments" and "file not
    found". *)
Inductive umessage : Type :=
| MsgNoArguments
| MsgFileNotFound.

Inductive request : Type :=
| AskGetargs (nbytes : Z)
| AskOpen
| AskRead (fd : Z) (to : dest) (nbytes : Z)
| AskAudioInit
| AskAudioCstatus
| AskAudioShutdown.

Inductive syscall : Type :=
| Getargs (nbytes ret : Z)
| Fdputs (fd : Z) (m : umessage)
| Open (ret : Z)
| Read (fd : Z) (to : dest) (nbytes ret : Z)
| AudioInit (ret : Z)
| AudioCstatus (ret : Z)
| AudioShutdown (ret : Z).

Definition kernel : Type := list syscall -> request -> Z.

(** How a run ends: [main] returns, or it is still in its [while(1)] when
    the iteration bound is reached, or it indexes [buf_val] outside its two
    elements. *)
Inductive ending : Type :=
| Exit (code : Z)
| Spinning
| OutOfBounds.

Record run : Type := {
  ending_of : ending;
  calls : list syscall
}.

Section Consumer.

Variable k : kernel.

(** A system call returns an [int32_t]. *)
Definition sys (q : request) (hist : list syscall) : Z := sint32 (k hist q).

(** [buf_val[temp]] for the two-element array. *)
Definition buf_val_at (buf_val : list Z) (temp : Z) : option Z :=
  if (0 <=? temp) && (temp <? BUF_DIM) then nth_error buf_val (Z.to_nat temp)
  else None.

(** The [while(1)] loop of [main], [n] iterations of it at most. *)
Fixpoint refill_loop (fd : Z) (buf_val : list Z) (n : nat)
         (prev_cstatus : Z) (hist : list syscall) : run :=
  match n with
  | O => {| ending_of := Spinning; calls := hist |}
  | S n' =>
      let temp := sys AskAudioCstatus hist in
      let hist := hist ++ [AudioCstatus temp] in
      if negb (prev_cstatus =? temp) then
        match buf_val_at buf_val temp with
        | None => {| ending_of := OutOfBounds; calls := hist |}
        | Some addr =>
            let got := sys (AskRead fd (ToAddress addr) BUF_SIZE) hist in
            let hist := hist ++ [Read fd (ToAddress addr) BUF_SIZE got] in
            if got =? 0 then
              let r := sys AskAudioShutdown hist in
              {| ending_of := Exit 0; calls := hist ++ [AudioShutdown r] |}
            else refill_loop fd buf_val n' temp hist
        end
      else refill_loop fd buf_val n' prev_cstatus hist
  end.

Definition main (fuel : nat) : run :=
  let hist := [] in
  let args := sys (AskGetargs COPY_LEN) hist in
  let hist := hist ++ [Getargs COPY_LEN args] in
  if negb (0 =? args) then
    {| ending_of := Exit 3; calls := hist ++ [Fdputs 1 MsgNoArguments] |}
  else
  let fd := sys AskOpen hist in
  let hist := hist ++ [Open fd] in
  if -1 =? fd then
    {| ending_of := Exit 2; calls := hist ++ [Fdputs 1 MsgFileNotFound] |}
  else
  let hist := hist ++ [Read fd ToInfoBlock IBLOCK_SIZE
                            (sys (AskRead fd ToInfoBlock IBLOCK_SIZE) hist)] in
  let init_retval := sys AskAudioInit hist in
  let hist := hist ++ [AudioInit init_retval] in
  if init_retval =? -1 then {| ending_of := Exit 0; calls := hist |} else
  let buf_val := [u32 init_retval; u32 (u32 init_retval + BUF_SIZE)] in
  let hist := hist ++ [Read fd (ToAddress (nth 0 buf_val 0)) BUF_SIZE
                            (sys (AskRead fd (ToAddress (nth 0 buf_val 0)) BUF_SIZE) hist)] in
  let hist := hist ++ [Read fd (ToAddress (nth 1 buf_val 0)) BUF_SIZE
                            (sys (AskRead fd (ToAddress (nth 1 buf_val 0)) BUF_SIZE) hist)] in
  refill_loop fd buf_val fuel 0 hist.

(** What the first three calls bring. *)
Definition args_answer : Z := sys (AskGetargs COPY_LEN) [].
Definition open_answer : Z := sys AskOpen [Getargs COPY_LEN args_answer].
Definition init_answer : Z :=
  sys AskAudioInit
      [Getargs COPY_LEN args_answer; Open open_answer;
       Read open_answer ToInfoBlock IBLOCK_SIZE
            (sys (AskRead open_answer ToInfoBlock IBLOCK_SIZE)
                 [Getargs COPY_LEN args_answer; Open open_answer])].

(** The two halves [main] computes from what [ece391_audio_init] returns,
    and the six calls it has made when it enters its loop. *)
Definition base_address : Z := u32 init_answer.
Definition second_half : Z := u32 (u32 init_answer + BUF_SIZE).
Definition setup_calls : list syscall :=
  let c3 := [Getargs COPY_LEN args_answer; Open open_answer;
             Read open_answer ToInfoBlock IBLOCK_SIZE
                  (sys (AskRead open_answer ToInfoBlock IBLOCK_SIZE)
                       [Getargs COPY_LEN args_answer; Open open_answer])] in
  let c4 := c3 ++ [AudioInit init_answer] in
  let c5 := c4 ++ [Read open_answer (ToAddress base_address) BUF_SIZE
                        (sys (AskRead open_answer (ToAddress base_address) BUF_SIZE) c4)] in
  c5 ++ [Read open_answer (ToAddress second_half) BUF_SIZE
              (sys (AskRead open_answer (ToAddress second_half) BUF_SIZE) c5)].

End Consumer.

(** ** Vocabulary for the runs of [main] *)

(** The addresses the run has read file data into, oldest first. *)
Fixpoint buffer_reads (cs : list syscall) : list Z :=
  match cs with
  | [] => []
  | Read _ (ToAddress a) _ _ :: cs' => a :: buffer_reads cs'
  | _ :: cs' => buffer_reads cs'
  end.

(** The answers the status calls brought, oldest first. *)
Fixpoint statuses (cs : list syscall) : list Z :=
  match cs with
  | [] => []
  | AudioCstatus s :: cs' => s :: statuses cs'
  | _ :: cs' => statuses cs'
  end.

Definition is_shutdown (c : syscall) : bool :=
  match c with AudioShutdown _ => true | _ => false end.

(** [m] addresses, [x] and [y] in turn, [x] first. *)
Fixpoint alternate (x y : Z) (m : nat) : list Z :=
  match m with
  | O => []
  | S m' => x :: alternate y x m'
  end.

(** How often a sequence of status answers changes, read after [prev]. *)
Fixpoint changes (prev : Z) (l : list Z) : nat :=
  match l with
  | [] => O
  | s :: l' => if s =? prev then changes prev l' else S (changes s l')
  end.

(** A kernel for the examples: arguments and file are there, the driver is
    initialised at 0x130000, the status is 1 at the first call and toggles
    at every later one, and the file ends at the third refill. *)
Definition demo_kernel : kernel :=
  fun hist q =>
    match q with
    | AskGetargs _ => 0
    | AskOpen => 3
    | AskRead _ ToInfoBlock _ => 44
    | AskRead _ (ToAddress _) _ =>
        if (length (buffer_reads hist) <? 4)%nat then 32768 else 0
    | AskAudioInit => 0x130000
    | AskAudioCstatus => if Nat.even (length (statuses hist)) then 1 else 0
    | AskAudioShutdown => 0
    end.

(** A kernel whose driver never toggles the status away from 0. *)
Definition quiet_kernel : kernel :=
  fun hist q =>
    match q with
    | AskGetargs _ => 0
    | AskOpen => 3
    | AskRead _ _ _ => 0
    | AskAudioInit => 0x130000
    | AskAudioCstatus => 0
    | AskAudioShutdown => 0
    end.

(** A kernel whose status call answers 2. *)
Definition stray_kernel : kernel :=
  fun hist q =>
    match q with
    | AskAudioCstatus => 2
    | q' => quiet_kernel hist q'
    end.

(** ** Basic facts about computations *)

Lemma bind_done {A B} (m : M A) (f : A -> M B) w b w' :
  bind m f w = Done b w' ->
  exists a w1, m w = Done a w1 /\ f a w1 = Done b w'.
Proof.
  unfold bind. destruct (m w) as [a w1| |]; try discriminate.
  intros H. exists a, w1. split; [reflexivity | exact H].
Qed.

Lemma bind_step {A B} (m : M A) (f : A -> M B) w a w1 :
  m w = Done a w1 -> bind m f w = f a w1.
Proof. unfold bind. intros ->. reflexivity. Qed.

Lemma extend_nil w : extend w [] = w.
Proof. destruct w. unfold extend. cbn. rewrite app_nil_r. reflexivity. Qed.

Lemma extend_extend w e1 e2 : extend (extend w e1) e2 = extend w (e1 ++ e2).
Proof. unfold extend. cbn. rewrite app_assoc. reflexivity. Qed.

Lemma emit_extend e w : emit e w = Done tt (extend w [e]).
Proof. reflexivity. Qed.

Lemma writes_app e1 e2 : writes (e1 ++ e2) = writes e1 ++ writes e2.
Proof.
  induction e1 as [|e e1 IH]; cbn; [reflexivity|].
  destruct e; cbn; rewrite IH; reflexivity.
Qed.

Lemma bus_only_ret {A} (a : A) (Q : A -> list event -> Prop) :
  Q a [] -> bus_only (ret a) Q.
Proof.
  intros HQ w a' w' H. inversion H; subst. exists []. rewrite extend_nil. auto.
Qed.

Lemma bus_only_bind {A B} (m : M A) (f : A -> M B)
      (Q : A -> list event -> Prop) (R : B -> list event -> Prop)
      (S : B -> list event -> Prop) :
  bus_only m Q ->
  (forall a, bus_only (f a) R) ->
  (forall a b e1 e2, Q a e1 -> R b e2 -> S b (e1 ++ e2)) ->
  bus_only (bind m f) S.
Proof.
  intros Hm Hf HS w b w' H.
  apply bind_done in H. destruct H as (a & w1 & H1 & H2).
  apply Hm in H1. destruct H1 as (e1 & -> & HQ).
  apply (Hf a) in H2. destruct H2 as (e2 & -> & HR).
  exists (e1 ++ e2). rewrite extend_extend. split; [reflexivity | eauto].
Qed.

Section DriverFacts.

Variable h : sb16_h.
Variable card : device.
Variable fuel : nat.

Lemma inb_extend port w :
  inb card port w =
  Done (u8 (card (trace w) port)) (extend w [Inb port (u8 (card (trace w) port))]).
Proof. reflexivity. Qed.

Lemma inb_bus port : bus_only (inb card port) (fun _ evs => writes evs = []).
Proof.
  intros w a w' H. rewrite inb_extend in H. inversion H; subst.
  eexists. split; [reflexivity | reflexivity].
Qed.

Lemma outb_bus val port :
  bus_only (outb val port) (fun _ evs => writes evs = [(val, port)]).
Proof.
  intros w a w' H. unfold outb in H. rewrite emit_extend in H.
  inversion H; subst. eexists. split; reflexivity.
Qed.

Lemma dsp_read_wait_bus n :
  bus_only (dsp_read_wait h card n) (fun _ evs => writes evs = []).
Proof.
  induction n as [|n IH]; cbn [dsp_read_wait].
  - intros w a w' H. discriminate.
  - apply bus_only_bind with (Q := fun _ evs => writes evs = [])
                             (R := fun _ evs => writes evs = []).
    + apply inb_bus.
    + intros v. destruct (Z.land v (BUF_RDY_VAL h) =? 0).
      * exact IH.
      * apply bus_only_ret. reflexivity.
    + intros _ _ e1 e2 H1 H2. rewrite writes_app, H1, H2. reflexivity.
Qed.

Lemma dsp_read_bus :
  bus_only (dsp_read h card fuel) (fun _ evs => writes evs = []).
Proof.
  unfold dsp_read.
  apply bus_only_bind with (Q := fun _ evs => writes evs = [])
                           (R := fun _ evs => writes evs = []).
  - apply dsp_read_wait_bus.
  - intros _. apply bus_only_bind with (Q := fun _ evs => writes evs = [])
                                       (R := fun _ evs => writes evs = []).
    + apply inb_bus.
    + intros v. apply bus_only_ret. reflexivity.
    + intros _ _ e1 e2 H1 H2. rewrite writes_app, H1, H2. reflexivity.
  - intros _ _ e1 e2 H1 H2. rewrite writes_app, H1, H2. reflexivity.
Qed.

End DriverFacts.

(** ** The reset handshake *)

Lemma sint32_small z : - 2 ^ 31 <= z < 2 ^ 31 -> sint32 z = z.
Proof. intros H. unfold sint32. rewrite Z.mod_small; lia. Qed.

Section ResetFacts.

Variable h : sb16_h.
Variable card : device.
Variable fuel : nat.

Lemma reset_poll_step n i w v w1 :
  dsp_read h card fuel w = Done v w1 ->
  sb16_reset_poll h card fuel (S n) i w =
  if v =? SUCCESS_VAL h then Done i w1
  else if i =? 0 then Done (sint32 (i - 1)) w1
  else sb16_reset_poll h card fuel n (sint32 (i - 1)) w1.
Proof.
  intros Hr. cbn [sb16_reset_poll]. rewrite (bind_step _ _ _ _ _ Hr).
  destruct (v =? SUCCESS_VAL h); [reflexivity|].
  destruct (i =? 0); reflexivity.
Qed.

(** The ready byte comes after [k] failed polls, inside the budget. *)
Lemma reset_poll_ready k : forall n i w wk w',
  0 <= i < 2 ^ 31 -> Z.of_nat k <= i -> (k < n)%nat ->
  polls_fail h card fuel k w wk ->
  dsp_read h card fuel wk = Done (SUCCESS_VAL h) w' ->
  sb16_reset_poll h card fuel n i w = Done (i - Z.of_nat k) w'.
Proof.
  induction k as [|k IH]; intros n i w wk w' Hi Hk Hn Hf Hr.
  - cbn in Hf. subst wk. destruct n as [|n]; [lia|].
    rewrite (reset_poll_step _ _ _ _ _ Hr), Z.eqb_refl.
    f_equal. lia.
  - cbn [polls_fail] in Hf. destruct Hf as (v & w1 & Hv & Hne & Hf).
    destruct n as [|n]; [lia|].
    rewrite (reset_poll_step _ _ _ _ _ Hv).
    apply Z.eqb_neq in Hne. rewrite Hne.
    destruct (Z.eqb_spec i 0) as [E|E]; [lia|].
    rewrite sint32_small by lia.
    rewrite (IH n (i - 1) w1 wk w'); try assumption; try lia.
    f_equal. lia.
Qed.

(** No ready byte on any of the polls the budget allows. *)
Lemma reset_poll_exhausted k : forall n w w',
  Z.of_nat k < 2 ^ 31 -> (k < n)%nat ->
  polls_fail h card fuel (S k) w w' ->
  sb16_reset_poll h card fuel n (Z.of_nat k) w = Done (-1) w'.
Proof.
  induction k as [|k IH]; intros n w w' Hk Hn Hf;
    cbn [polls_fail] in Hf; destruct Hf as (v & w1 & Hv & Hne & Hf);
    (destruct n as [|n]; [lia|]);
    rewrite (reset_poll_step _ _ _ _ _ Hv);
    apply Z.eqb_neq in Hne; rewrite Hne.
  - cbn in Hf. subst w'. reflexivity.
  - destruct (Z.eqb_spec (Z.of_nat (S k)) 0) as [E|E]; [lia|].
    rewrite sint32_small by lia.
    replace (Z.of_nat (S k) - 1) with (Z.of_nat k) by lia.
    apply IH; [lia | lia | exact Hf].
Qed.

(** Every return of the polling loop is one of the two above. *)
Lemma reset_poll_inv n : forall k w j w',
  Z.of_nat k < 2 ^ 31 ->
  sb16_reset_poll h card fuel n (Z.of_nat k) w = Done j w' ->
  (exists m, (1 <= m <= S k)%nat /\ first_ready h card fuel m w w' /\
             j = Z.of_nat k - Z.of_nat (Nat.pred m)) \/
  (polls_fail h card fuel (S k) w w' /\ j = -1).
Proof.
  induction n as [|n IH]; intros k w j w' Hk H; [discriminate|].
  cbn [sb16_reset_poll] in H. apply bind_done in H.
  destruct H as (v & w1 & Hv & H).
  destruct (Z.eqb_spec v (SUCCESS_VAL h)) as [E|E].
  - inversion H; subst j w1 v. left. exists 1%nat. split; [lia|]. split.
    + exists w. cbn. auto.
    + cbn. lia.
  - destruct (Z.eqb_spec (Z.of_nat k) 0) as [E0|E0].
    + inversion H; subst j w1. right. split.
      * assert (k = O) by lia. subst k. cbn. exists v, w'. auto.
      * rewrite E0. reflexivity.
    + rewrite sint32_small in H by lia.
      destruct k as [|k]; [lia|].
      replace (Z.of_nat (S k) - 1) with (Z.of_nat k) in H by lia.
      apply IH in H; [|lia].
      destruct H as [(m & Hm & (wk & _ & Hf & Hr) & Hj) | (Hf & Hj)].
      * left. exists (S m). split; [lia|]. split.
        -- exists wk. split; [lia|]. split; [|exact Hr].
           cbn [Nat.pred]. destruct m as [|m]; [lia|].
           cbn [Nat.pred] in Hf. cbn [polls_fail]. exists v, w1. auto.
        -- cbn [Nat.pred]. lia.
      * right. split; [|exact Hj].
        cbn [polls_fail]. exists v, w1. auto.
Qed.

Lemma sb16_reset_unfold w :
  sb16_reset h card fuel w =
  bind (sb16_reset_poll h card fuel fuel (sint32 (WAITLOOP h)))
       (fun i => ret (sint32 (i - 1))) (pulsed h w).
Proof.
  unfold sb16_reset, outb, pulsed.
  rewrite (bind_step _ _ _ _ _ (emit_extend _ _)).
  rewrite (bind_step _ _ _ _ _ (emit_extend _ _)).
  rewrite extend_extend. reflexivity.
Qed.

End ResetFacts.

(** ** Programming the DMA controller and the codec *)

Lemma bus_only_seq {A B} (m : M A) (f : A -> M B) l1 l2 :
  bus_only m (fun _ evs => writes evs = l1) ->
  (forall a, bus_only (f a) (fun _ evs => writes evs = l2)) ->
  bus_only (bind m f) (fun _ evs => writes evs = l1 ++ l2).
Proof.
  intros Hm Hf.
  apply bus_only_bind with (Q := fun _ evs => writes evs = l1)
                           (R := fun _ evs => writes evs = l2);
    [exact Hm | exact Hf |].
  intros _ _ e1 e2 H1 H2. rewrite writes_app, H1, H2. reflexivity.
Qed.

Section ProgramFacts.

Variable h : sb16_h.
Variable card : device.
Variable fuel : nat.

Lemma dma_init_run off len page w :
  dma_init h off len page w =
  Done tt (extend w
    [ Outb (DMA_STOP_MASK h) (DMA_MASK_PORT h);
      Outb 0 (DMA_CLR_PTR_PORT h);
      Outb (DMA_MODE h) (DMA_MODE_PORT h);
      Outb (lo_byte off) (DMA_BASE_ADDR h);
      Outb (hi_byte off) (DMA_BASE_ADDR h);
      Outb (lo_byte len) (DMA_COUNT_PORT h);
      Outb (hi_byte len) (DMA_COUNT_PORT h);
      Outb page (DMA_PAGE_PORT h);
      Outb (DMA_START_MASK h) (DMA_MASK_PORT h) ]).
Proof.
  unfold dma_init, outb, bind, emit, extend. cbn.
  repeat rewrite <- app_assoc. reflexivity.
Qed.

Lemma dsp_write_wait_bus n :
  bus_only (dsp_write_wait h card n) (fun _ evs => writes evs = []).
Proof.
  induction n as [|n IH]; cbn [dsp_write_wait].
  - intros w a w' H. discriminate.
  - apply (bus_only_seq _ _ [] []); [apply inb_bus|].
    intros v. destruct (Z.land v (BUF_RDY_VAL h) =? 0).
    + apply bus_only_ret. reflexivity.
    + exact IH.
Qed.

Lemma dsp_write_bus command :
  bus_only (dsp_write h card fuel command)
           (fun _ evs => writes evs = [(u8 command, SB16_WRITE_PORT h)]).
Proof.
  unfold dsp_write.
  apply (bus_only_seq _ _ [] [(u8 command, SB16_WRITE_PORT h)]).
  - apply dsp_write_wait_bus.
  - intros _. apply outb_bus.
Qed.

Lemma dsp_init_bus sample_rate bcommand bmode block_length :
  bus_only (dsp_init h card fuel sample_rate bcommand bmode block_length)
    (fun _ evs => writes evs =
       [ (u8 (DSP_OUT_RATE_CMD h), SB16_WRITE_PORT h);
         (u8 (hi_byte sample_rate), SB16_WRITE_PORT h);
         (u8 (lo_byte sample_rate), SB16_WRITE_PORT h);
         (u8 bcommand, SB16_WRITE_PORT h);
         (u8 bmode, SB16_WRITE_PORT h);
         (u8 (lo_byte block_length), SB16_WRITE_PORT h);
         (u8 (hi_byte block_length), SB16_WRITE_PORT h) ]).
Proof.
  unfold dsp_init.
  repeat (apply (bus_only_seq _ _ [_]); [apply dsp_write_bus | intros _]).
  apply dsp_write_bus.
Qed.

Lemma dsp_write_wait_no_fault n w : dsp_write_wait h card n w <> Fault.
Proof.
  revert w. induction n as [|n IH]; intros w; cbn [dsp_write_wait];
    [discriminate|].
  rewrite (bind_step _ _ _ _ _ (inb_extend card _ w)).
  destruct (Z.land _ _ =? 0); [discriminate | apply IH].
Qed.

Lemma dsp_write_returns command w :
  writes_complete h card fuel ->
  exists w', dsp_write h card fuel command w = Done tt w'.
Proof.
  intros Hc. unfold dsp_write.
  destruct (dsp_write_wait h card fuel w) as [[] w1| |] eqn:E.
  - rewrite (bind_step _ _ _ _ _ E). unfold outb. rewrite emit_extend. eauto.
  - destruct (Hc w E).
  - destruct (dsp_write_wait_no_fault _ _ E).
Qed.

Lemma dsp_init_returns sample_rate bcommand bmode block_length w :
  writes_complete h card fuel ->
  exists w', dsp_init h card fuel sample_rate bcommand bmode block_length w
             = Done tt w'.
Proof.
  intros Hc. unfold dsp_init.
  repeat match goal with
  | |- exists w', bind (dsp_write h card fuel ?c) _ ?w0 = _ =>
      let w1 := fresh "w" in let E := fresh "E" in
      destruct (dsp_write_returns c w0 Hc) as (w1 & E);
      rewrite (bind_step _ _ _ _ _ E)
  end.
  apply dsp_write_returns. exact Hc.
Qed.

(** The events [start_playback] adds, whenever it returns. *)
Lemma start_playback_inv sample_rate w r w' :
  start_playback h card fuel sample_rate w = Done r w' ->
  exists evs,
    r = sint32 (buffer h) /\
    w' = {| in_use := 1; int_flag := 1; trace := trace w ++ evs |} /\
    writes evs =
      [ (DMA_STOP_MASK h, DMA_MASK_PORT h);
        (0, DMA_CLR_PTR_PORT h);
        (DMA_MODE h, DMA_MODE_PORT h);
        (lo_byte (buf_offset (buffer h)), DMA_BASE_ADDR h);
        (hi_byte (buf_offset (buffer h)), DMA_BASE_ADDR h);
        (lo_byte (u16 (BUF_SIZE - 1)), DMA_COUNT_PORT h);
        (hi_byte (u16 (BUF_SIZE - 1)), DMA_COUNT_PORT h);
        (buf_page (buffer h), DMA_PAGE_PORT h);
        (DMA_START_MASK h, DMA_MASK_PORT h) ] ++
      [ (u8 (DSP_OUT_RATE_CMD h), SB16_WRITE_PORT h);
        (u8 (hi_byte sample_rate), SB16_WRITE_PORT h);
        (u8 (lo_byte sample_rate), SB16_WRITE_PORT h);
        (u8 (u8 (DSP_BCOMMAND h)), SB16_WRITE_PORT h);
        (u8 (u8 (DSP_BMODE h)), SB16_WRITE_PORT h);
        (u8 (lo_byte (u16 (BUF_SIZE / BUF_DIM - 1))), SB16_WRITE_PORT h);
        (u8 (hi_byte (u16 (BUF_SIZE / BUF_DIM - 1))), SB16_WRITE_PORT h) ].
Proof.
  unfold start_playback. intros H.
  rewrite (bind_step _ _ _ _ _ (dma_init_run _ _ _ _)) in H.
  apply bind_done in H. destruct H as ([] & w1 & Hd & H).
  apply dsp_init_bus in Hd. destruct Hd as (e2 & -> & Hw).
  rewrite extend_extend in H. cbv [bind set_in_use set_int_flag ret] in H.
  inversion H; subst r w'. eexists. split; [reflexivity|]. split.
  - cbn. reflexivity.
  - cbn [writes app]. rewrite Hw. reflexivity.
Qed.

Lemma start_playback_returns sample_rate w :
  writes_complete h card fuel ->
  exists w', start_playback h card fuel sample_rate w
             = Done (sint32 (buffer h)) w'.
Proof.
  intros Hc. unfold start_playback.
  rewrite (bind_step _ _ _ _ _ (dma_init_run _ _ _ _)).
  match goal with
  | |- exists w', bind (dsp_init h card fuel ?a ?b ?c ?d) _ ?w0 = _ =>
      destruct (dsp_init_returns a b c d w0 Hc) as (w1 & E)
  end.
  rewrite (bind_step _ _ _ _ _ E). cbv [bind set_in_use set_int_flag ret].
  eauto.
Qed.

End ProgramFacts.

(** ** Initialisation *)

Lemma get_in_use_step {B} (f : Z -> M B) w :
  bind get_in_use f w = f (in_use w) w.
Proof. reflexivity. Qed.

Lemma lift_step {A B} (a : A) (f : A -> M B) w :
  bind (lift (Some a)) f w = f a w.
Proof. reflexivity. Qed.

Section InitFacts.

Variable h : sb16_h.
Variable card : device.
Variable fuel : nat.

Lemma reset_poll_bus n : forall i,
  bus_only (sb16_reset_poll h card fuel n i) (fun _ evs => writes evs = []).
Proof.
  induction n as [|n IH]; intros i; cbn [sb16_reset_poll].
  - intros w a w' H. discriminate.
  - apply (bus_only_seq _ _ [] []); [apply dsp_read_bus|].
    intros v. destruct (v =? SUCCESS_VAL h).
    + apply bus_only_ret. reflexivity.
    + destruct (i =? 0); [apply bus_only_ret; reflexivity | apply IH].
Qed.

(** The reset handshake writes the reset port twice and nothing else. *)
Lemma sb16_reset_bus :
  bus_only (sb16_reset h card fuel)
    (fun _ evs => writes evs = [(1, SB16_RESET_PORT h); (0, SB16_RESET_PORT h)]).
Proof.
  unfold sb16_reset.
  apply (bus_only_seq _ _ [_] [_]); [apply outb_bus | intros _].
  apply (bus_only_seq _ _ [_] []); [apply outb_bus | intros _].
  apply (bus_only_seq _ _ [] []); [apply reset_poll_bus | intros i].
  apply bus_only_ret. reflexivity.
Qed.

Lemma sb16_init_enter info_block w :
  sb16_init h card fuel info_block w =
  bind get_in_use (fun busy =>
    if negb (busy =? 0) then printf MsgInUse ;; ret (-1) else
    r <- sb16_reset h card fuel ;;
    if r =? -1 then printf MsgResetFailed ;; ret (-1) else
    match info_block with
    | None => printf MsgInfoInvalid ;; ret (-1)
    | Some blk =>
        tag <- lift (memcpy blk (WAV_MAGIC_LOC h) FOUR_B) ;;
        let wav_check := strrev (tag ++ [x00]) in
        if negb (load32 wav_check =? WAV_MAGIC h) then printf MsgNotWav ;; ret (-1) else
        format <- lift (load16 blk (WAV_FORMAT_LOC h)) ;;
        if negb (format =? 1) then printf MsgCompressed ;; ret (-1) else
        nchannels <- lift (load16 blk (WAV_NCHANNELS_LOC h)) ;;
        if negb (nchannels =? NCHANNELS) then printf MsgNot16Stereo ;; ret (-1) else
        bpsample <- lift (load16 blk (BPSAMPLE_LOC h)) ;;
        if negb (bpsample =? _16BITS) then printf MsgNot16Stereo ;; ret (-1) else
        sample_rate <- lift (load16 blk (SAMPLE_RATE_LOC h)) ;;
        start_playback h card fuel sample_rate
    end) (extend w [EnableIrq (SB16_IRQ_LINE h)]).
Proof. reflexivity. Qed.

Lemma sb16_init_busy info_block w :
  in_use w <> 0 ->
  sb16_init h card fuel info_block w =
  Done (-1) (extend w [EnableIrq (SB16_IRQ_LINE h); Printf MsgInUse]).
Proof.
  intros Hb. rewrite sb16_init_enter, get_in_use_step. cbn [in_use extend].
  apply Z.eqb_neq in Hb. rewrite Hb. cbn [negb].
  unfold printf. rewrite (bind_step _ _ _ _ _ (emit_extend _ _)).
  unfold ret. rewrite extend_extend. reflexivity.
Qed.

(** What the run is once the card is found idle and the reset handshake
    has returned something else than -1. *)
Lemma sb16_init_past_reset info_block w rs w1 :
  in_use w = 0 ->
  sb16_reset h card fuel (extend w [EnableIrq (SB16_IRQ_LINE h)]) = Done rs w1 ->
  rs <> -1 ->
  sb16_init h card fuel info_block w =
  match info_block with
  | None => Done (-1) (extend w1 [Printf MsgInfoInvalid])
  | Some blk =>
      match parse h blk with
      | Some f =>
          if negb (load32 (strrev (f_tag f ++ [x00])) =? WAV_MAGIC h)
          then Done (-1) (extend w1 [Printf MsgNotWav])
          else if negb (f_format f =? 1)
          then Done (-1) (extend w1 [Printf MsgCompressed])
          else if negb (f_nchannels f =? NCHANNELS) || negb (f_bpsample f =? _16BITS)
          then Done (-1) (extend w1 [Printf MsgNot16Stereo])
          else start_playback h card fuel (f_sample_rate f) w1
      | None => sb16_init h card fuel info_block w
      end
  end.
Proof.
  intros Hidle Hrs Hne.
  destruct info_block as [blk|].
  2:{ rewrite sb16_init_enter, get_in_use_step. cbn [in_use extend].
      rewrite Hidle. cbn [Z.eqb negb]. rewrite (bind_step _ _ _ _ _ Hrs).
      apply Z.eqb_neq in Hne. rewrite Hne. reflexivity. }
  destruct (parse h blk) as [f|] eqn:Ep; [|reflexivity].
  rewrite sb16_init_enter, get_in_use_step. cbn [in_use extend].
  rewrite Hidle. cbn [Z.eqb negb]. rewrite (bind_step _ _ _ _ _ Hrs).
  apply Z.eqb_neq in Hne. rewrite Hne.
  unfold parse in Ep.
  destruct (memcpy blk (WAV_MAGIC_LOC h) FOUR_B) as [t|]; [|discriminate].
  destruct (load16 blk (WAV_FORMAT_LOC h)) as [fo|]; [|discriminate].
  destruct (load16 blk (WAV_NCHANNELS_LOC h)) as [nc|]; [|discriminate].
  destruct (load16 blk (BPSAMPLE_LOC h)) as [bp|]; [|discriminate].
  destruct (load16 blk (SAMPLE_RATE_LOC h)) as [sr|]; [|discriminate].
  inversion Ep; subst f; cbn [f_tag f_format f_nchannels f_bpsample f_sample_rate].
  rewrite lift_step. cbv zeta.
  destruct (negb (load32 (strrev (t ++ [x00])) =? WAV_MAGIC h)); [reflexivity|].
  rewrite lift_step. destruct (negb (fo =? 1)); [reflexivity|].
  rewrite lift_step. destruct (negb (nc =? NCHANNELS)); [reflexivity|].
  rewrite lift_step. destruct (negb (bp =? _16BITS)); [reflexivity|].
  rewrite lift_step. reflexivity.
Qed.

(** Every return of [sb16_init] is an error return that has written at
    most the reset port, or it comes out of [start_playback]. *)
Lemma sb16_init_inv info_block w r w' :
  sb16_init h card fuel info_block w = Done r w' ->
  (r = -1 /\ exists evs, w' = extend w evs /\
     (writes evs = [] \/
      writes evs = [(1, SB16_RESET_PORT h); (0, SB16_RESET_PORT h)])) \/
  (exists blk f w1 evs,
     info_block = Some blk /\ parse h blk = Some f /\ in_use w = 0 /\
     w1 = extend w evs /\
     writes evs = [(1, SB16_RESET_PORT h); (0, SB16_RESET_PORT h)] /\
     start_playback h card fuel (f_sample_rate f) w1 = Done r w').
Proof.
  intros H.
  destruct (Z.eq_dec (in_use w) 0) as [Hidle|Hbusy].
  2:{ rewrite (sb16_init_busy _ _ Hbusy) in H. inversion H; subst.
      left. split; [reflexivity|]. eexists. split; [reflexivity|].
      left. reflexivity. }
  pose proof H as H0.
  rewrite sb16_init_enter, get_in_use_step in H0. cbn [in_use extend] in H0.
  rewrite Hidle in H0. cbn [Z.eqb negb] in H0.
  apply bind_done in H0. destruct H0 as (rs & w1 & Hrs & H0).
  pose proof (sb16_reset_bus _ _ _ Hrs) as (e1 & Hw1 & Hwr).
  assert (Hext : forall m, extend w1 [Printf m]
                 = extend w ([EnableIrq (SB16_IRQ_LINE h)] ++ e1 ++ [Printf m])).
  { intros m. rewrite Hw1, !extend_extend, app_assoc. reflexivity. }
  assert (Hwrites : forall m,
            writes ([EnableIrq (SB16_IRQ_LINE h)] ++ e1 ++ [Printf m])
            = [(1, SB16_RESET_PORT h); (0, SB16_RESET_PORT h)]).
  { intros m. rewrite !writes_app, Hwr. reflexivity. }
  assert (Herr : forall m, Done r w' = Done (-1) (extend w1 [Printf m]) ->
            r = -1 /\ exists evs, w' = extend w evs /\
              (writes evs = [] \/
               writes evs = [(1, SB16_RESET_PORT h); (0, SB16_RESET_PORT h)])).
  { intros m E. inversion E; subst r w'. split; [reflexivity|].
    eexists. split; [apply Hext|]. right. apply Hwrites. }
  destruct (Z.eqb_spec rs (-1)) as [Ers|Ers].
  { left. apply (Herr MsgResetFailed). rewrite <- H0. reflexivity. }
  clear H0. rewrite (sb16_init_past_reset _ _ _ _ Hidle Hrs Ers) in H.
  destruct info_block as [blk|]; [|left; apply (Herr MsgInfoInvalid); auto].
  destruct (parse h blk) as [f|] eqn:Ep.
  - destruct (negb (load32 (strrev (f_tag f ++ [x00])) =? WAV_MAGIC h));
      [left; apply (Herr MsgNotWav); auto|].
    destruct (negb (f_format f =? 1));
      [left; apply (Herr MsgCompressed); auto|].
    destruct (negb (f_nchannels f =? NCHANNELS) || negb (f_bpsample f =? _16BITS));
      [left; apply (Herr MsgNot16Stereo); auto|].
    right. exists blk, f, w1, ([EnableIrq (SB16_IRQ_LINE h)] ++ e1).
    split; [reflexivity|]. split; [exact Ep|]. split; [exact Hidle|].
    split; [rewrite Hw1, extend_extend; reflexivity|].
    split; [rewrite writes_app, Hwr; reflexivity | exact H].
  - (* a field lies outside the block: the run ends on an error before the
       missing field is read, or it faults *)
    rewrite sb16_init_enter, get_in_use_step in H. cbn [in_use extend] in H.
    rewrite Hidle in H. cbn [Z.eqb negb] in H.
    rewrite (bind_step _ _ _ _ _ Hrs) in H.
    apply Z.eqb_neq in Ers. rewrite Ers in H.
    unfold parse in Ep.
    destruct (memcpy blk (WAV_MAGIC_LOC h) FOUR_B) as [t|]; [|discriminate H].
    rewrite lift_step in H. cbv zeta in H.
    destruct (negb (load32 (strrev (t ++ [x00])) =? WAV_MAGIC h));
      [left; apply (Herr MsgNotWav); auto|].
    destruct (load16 blk (WAV_FORMAT_LOC h)) as [fo|]; [|discriminate H].
    rewrite lift_step in H.
    destruct (negb (fo =? 1)); [left; apply (Herr MsgCompressed); auto|].
    destruct (load16 blk (WAV_NCHANNELS_LOC h)) as [nc|]; [|discriminate H].
    rewrite lift_step in H.
    destruct (negb (nc =? NCHANNELS)); [left; apply (Herr MsgNot16Stereo); auto|].
    destruct (load16 blk (BPSAMPLE_LOC h)) as [bp|]; [|discriminate H].
    rewrite lift_step in H.
    destruct (negb (bp =? _16BITS)); [left; apply (Herr MsgNot16Stereo); auto|].
    destruct (load16 blk (SAMPLE_RATE_LOC h)) as [sr|]; discriminate.
Qed.

End InitFacts.

Section ResetTheorems.

Variable h : sb16_h.
Variable card : device.
Variable fuel : nat.

Lemma dsp_read_wait_no_fault n w : dsp_read_wait h card n w <> Fault.
Proof.
  revert w. induction n as [|n IH]; intros w; cbn [dsp_read_wait];
    [discriminate|].
  rewrite (bind_step _ _ _ _ _ (inb_extend card _ w)).
  destruct (Z.land _ _ =? 0); [apply IH | discriminate].
Qed.

(** A card whose status ports show "byte available", respectively "ready
    for a write", on every read answers the waits at the first try. *)
Lemma reads_complete_when_available :
  (0 < fuel)%nat ->
  (forall t, Z.land (u8 (card t (SB16_POLL_PORT h))) (BUF_RDY_VAL h) <> 0) ->
  reads_complete h card fuel.
Proof.
  intros Hf Hd w. destruct fuel as [|n]; [lia|].
  cbn [dsp_read_wait]. rewrite (bind_step _ _ _ _ _ (inb_extend card _ w)).
  destruct (Z.eqb_spec (Z.land (u8 (card (trace w) (SB16_POLL_PORT h)))
                               (BUF_RDY_VAL h)) 0) as [E|E].
  - destruct (Hd (trace w) E).
  - discriminate.
Qed.

Lemma writes_complete_when_ready :
  (0 < fuel)%nat ->
  (forall t, Z.land (u8 (card t (SB16_WRITE_PORT h))) (BUF_RDY_VAL h) = 0) ->
  writes_complete h card fuel.
Proof.
  intros Hf Hd w. destruct fuel as [|n]; [lia|].
  cbn [dsp_write_wait]. rewrite (bind_step _ _ _ _ _ (inb_extend card _ w)).
  rewrite (Hd (trace w)). discriminate.
Qed.

Lemma dsp_read_returns w :
  reads_complete h card fuel ->
  exists v w', dsp_read h card fuel w = Done v w'.
Proof.
  intros Hc. unfold dsp_read.
  destruct (dsp_read_wait h card fuel w) as [[] w1| |] eqn:E.
  - rewrite (bind_step _ _ _ _ _ E).
    rewrite (bind_step _ _ _ _ _ (inb_extend card _ w1)). unfold ret. eauto.
  - destruct (Hc w E).
  - destruct (dsp_read_wait_no_fault _ _ E).
Qed.

Lemma reset_poll_returns k : forall n w,
  reads_complete h card fuel ->
  Z.of_nat k < 2 ^ 31 -> (k < n)%nat ->
  exists j w', sb16_reset_poll h card fuel n (Z.of_nat k) w = Done j w'.
Proof.
  induction k as [|k IH]; intros n w Hc Hk Hn;
    (destruct n as [|n]; [lia|]);
    destruct (dsp_read_returns w Hc) as (v & w1 & Hv);
    rewrite (reset_poll_step _ _ _ _ _ _ _ _ Hv);
    (destruct (v =? SUCCESS_VAL h); [eauto|]).
  - cbn. eauto.
  - destruct (Z.eqb_spec (Z.of_nat (S k)) 0) as [E|E]; [lia|].
    rewrite sint32_small by lia.
    replace (Z.of_nat (S k) - 1) with (Z.of_nat k) by lia.
    apply IH; [exact Hc | lia | lia].
Qed.

(** A card that answers every wait lets the reset handshake return. *)
Lemma sb16_reset_returns w :
  budget_ok h fuel -> reads_complete h card fuel ->
  exists r w', sb16_reset h card fuel w = Done r w'.
Proof.
  intros [Hw Hf] Hc. rewrite sb16_reset_unfold.
  rewrite sint32_small by lia.
  destruct (reset_poll_returns (Z.to_nat (WAITLOOP h)) fuel (pulsed h w) Hc)
    as (j & w' & E); [lia | lia |].
  rewrite Z2Nat.id in E by lia.
  rewrite (bind_step _ _ _ _ _ E). unfold ret. eauto.
Qed.

Lemma sb16_reset_ready_at w k w' :
  budget_ok h fuel ->
  (1 <= k <= S (Z.to_nat (WAITLOOP h)))%nat ->
  first_ready h card fuel k (pulsed h w) w' ->
  sb16_reset h card fuel w = Done (WAITLOOP h - Z.of_nat k) w'.
Proof.
  intros [Hw Hf] Hk (wk & _ & Hfail & Hr).
  rewrite sb16_reset_unfold, sint32_small by lia.
  rewrite (bind_step _ _ _ _ _
             (reset_poll_ready h card fuel (Nat.pred k) fuel (WAITLOOP h)
                (pulsed h w) wk w' ltac:(lia) ltac:(lia) ltac:(lia) Hfail Hr)).
  unfold ret. rewrite sint32_small by lia. f_equal. lia.
Qed.

Lemma sb16_reset_exhausted w w' :
  budget_ok h fuel ->
  polls_fail h card fuel (S (Z.to_nat (WAITLOOP h))) (pulsed h w) w' ->
  sb16_reset h card fuel w = Done (-2) w'.
Proof.
  intros [Hw Hf] Hfail.
  rewrite sb16_reset_unfold, sint32_small by lia.
  rewrite <- (Z2Nat.id (WAITLOOP h)) at 1 by lia.
  rewrite (bind_step _ _ _ _ _
             (reset_poll_exhausted h card fuel (Z.to_nat (WAITLOOP h)) fuel
                (pulsed h w) w' ltac:(lia) ltac:(lia) Hfail)).
  reflexivity.
Qed.

Lemma sb16_reset_inv w r w' :
  budget_ok h fuel ->
  sb16_reset h card fuel w = Done r w' ->
  (exists k, (1 <= k <= S (Z.to_nat (WAITLOOP h)))%nat /\
             first_ready h card fuel k (pulsed h w) w' /\
             r = WAITLOOP h - Z.of_nat k) \/
  (polls_fail h card fuel (S (Z.to_nat (WAITLOOP h))) (pulsed h w) w' /\ r = -2).
Proof.
  intros [Hw Hf] H.
  rewrite sb16_reset_unfold, sint32_small in H by lia.
  apply bind_done in H. destruct H as (j & w1 & Hp & H).
  inversion H; subst r w1. clear H.
  rewrite <- (Z2Nat.id (WAITLOOP h)) in Hp by lia.
  apply reset_poll_inv in Hp; [|lia].
  rewrite Z2Nat.id in Hp by lia.
  destruct Hp as [(m & Hm & Hfr & Hj) | (Hfail & Hj)].
  - left. exists m. split; [exact Hm|]. split; [exact Hfr|].
    subst j. rewrite sint32_small by lia. lia.
  - right. split; [exact Hfail|]. subst j. reflexivity.
Qed.

(** C2, as the code has it.  With [W = WAITLOOP]: if the ready byte first
    arrives on poll [k <= W + 1], the handshake returns [W - k] right after
    that poll, so a card that is ready on the first poll makes it return
    [W - 1] after one poll; if [W + 1] polls bring no ready byte, it returns
    -2 after exactly these [W + 1] polls; and whenever it returns, the value
    is non-negative exactly when the ready byte arrived within the first
    [W] polls. *)
Theorem sb16_reset_budget w :
  budget_ok h fuel ->
  (forall k w', (1 <= k <= S (Z.to_nat (WAITLOOP h)))%nat ->
      first_ready h card fuel k (pulsed h w) w' ->
      sb16_reset h card fuel w = Done (WAITLOOP h - Z.of_nat k) w') /\
  (forall w',
      polls_fail h card fuel (S (Z.to_nat (WAITLOOP h))) (pulsed h w) w' ->
      sb16_reset h card fuel w = Done (-2) w') /\
  (forall r w',
      sb16_reset h card fuel w = Done r w' ->
      (0 <= r <->
       exists k, (1 <= k <= Z.to_nat (WAITLOOP h))%nat /\
                 first_ready h card fuel k (pulsed h w) w')).
Proof.
  intros B. split; [|split].
  - intros k w' Hk Hfr. apply sb16_reset_ready_at; assumption.
  - intros w' Hfail. apply sb16_reset_exhausted; assumption.
  - intros r w' H. split.
    + intros Hr. destruct (sb16_reset_inv _ _ _ B H)
        as [(k & Hk & Hfr & Hj) | (_ & Hj)]; [|lia].
      exists k. split; [lia | exact Hfr].
    + intros (k & Hk & Hfr).
      rewrite (sb16_reset_ready_at w k w' B) in H by (auto; lia).
      inversion H. lia.
Qed.

End ResetTheorems.

(** The example card with [WAITLOOP = 3], ready on the first poll: one poll,
    return value 2. *)
Lemma sb16_reset_budget_witness :
  budget_ok sb16_at_220 5 /\
  sb16_reset sb16_at_220 card_ready 5 boot
  = Done 2 (extend boot [Outb 1 0x226; Outb 0 0x226; Inb 0x22E 0xFF; Inb 0x22A 0xAA]).
Proof.
  assert (B : budget_ok sb16_at_220 5) by (unfold budget_ok; cbn; lia).
  split; [exact B|].
  destruct (sb16_reset_budget sb16_at_220 card_ready 5 boot B) as (Hready & _ & _).
  apply (Hready 1%nat); [cbn; lia|].
  exists (pulsed sb16_at_220 boot). split; [lia|]. split; reflexivity.
Defined.

(** C2 as the specification words it has no budget that fits the code: the
    mute card is polled four times where [WAITLOOP] is 3, so the budget
    would have to be 4; but a card that acknowledges on the fourth poll
    gets a negative return all the same. *)
Lemma claimed_reset_budget_fails : ~ exists B, claimed_reset_budget B.
Proof.
  intros (B & Hiff & Hmute).
  destruct (sb16_reset sb16_at_220 card_mute 5 boot) as [r wm| |] eqn:Em;
    try (vm_compute in Em; discriminate).
  destruct (Hmute r wm eq_refl) as (_ & HB).
  vm_compute in Em. inversion Em; subst r wm. vm_compute in HB. subst B.
  destruct (sb16_reset sb16_at_220 (card_late 4) 5 boot) as [r wl| |] eqn:El;
    try (vm_compute in El; discriminate).
  destruct (Hiff (card_late 4) r wl El) as (_ & Hback).
  vm_compute in El. inversion El; subst r wl.
  assert (Hr : 0 <= -1); [|lia].
  apply Hback. exists 4%nat. split; [lia|].
  unfold first_ready. cbn [Nat.pred polls_fail].
  eexists. split; [lia|]. split.
  - eexists _, _. split; [reflexivity|]. split; [vm_compute; discriminate|].
    eexists _, _. split; [reflexivity|]. split; [vm_compute; discriminate|].
    eexists _, _. split; [reflexivity|]. split; [vm_compute; discriminate|].
    reflexivity.
  - vm_compute. reflexivity.
Qed.

(** ** What reaches the bus during initialisation *)

Lemma u8_lo_byte x : u8 (lo_byte x) = lo_byte x.
Proof.
  unfold u8, lo_byte, store16. cbn [nth].
  change (2 ^ 8) with 256. apply Z.mod_mod. lia.
Qed.

Lemma u8_hi_byte x : u8 (hi_byte x) = hi_byte x.
Proof.
  unfold u8, hi_byte, store16, u16. cbn [nth].
  change (2 ^ 8) with 256. change (2 ^ 16) with 65536.
  apply Z.mod_small.
  pose proof (Z.mod_pos_bound x 65536 ltac:(lia)).
  split; [apply Z.div_pos; lia | apply Z.div_lt_upper_bound; lia].
Qed.

Lemma u8_u8 x : u8 (u8 x) = u8 x.
Proof. unfold u8. apply Z.mod_mod. lia. Qed.

Section InitTheorems.

Variable h : sb16_h.
Variable card : device.
Variable fuel : nat.

(** The port writes of a successful [sb16_init], all of them. *)
Lemma sb16_init_success_writes info_block w r w' :
  sb16_init h card fuel info_block w = Done r w' -> r <> -1 ->
  exists blk f evs,
    info_block = Some blk /\ parse h blk = Some f /\
    r = sint32 (buffer h) /\ in_use w = 0 /\
    w' = {| in_use := 1; int_flag := 1; trace := trace w ++ evs |} /\
    writes evs =
      [ (1, SB16_RESET_PORT h); (0, SB16_RESET_PORT h) ] ++
      [ (DMA_STOP_MASK h, DMA_MASK_PORT h);
        (0, DMA_CLR_PTR_PORT h);
        (DMA_MODE h, DMA_MODE_PORT h);
        (lo_byte (buf_offset (buffer h)), DMA_BASE_ADDR h);
        (hi_byte (buf_offset (buffer h)), DMA_BASE_ADDR h);
        (lo_byte (BUF_SIZE - 1), DMA_COUNT_PORT h);
        (hi_byte (BUF_SIZE - 1), DMA_COUNT_PORT h);
        (buf_page (buffer h), DMA_PAGE_PORT h);
        (DMA_START_MASK h, DMA_MASK_PORT h) ] ++
      [ (u8 (DSP_OUT_RATE_CMD h), SB16_WRITE_PORT h);
        (hi_byte (f_sample_rate f), SB16_WRITE_PORT h);
        (lo_byte (f_sample_rate f), SB16_WRITE_PORT h);
        (u8 (DSP_BCOMMAND h), SB16_WRITE_PORT h);
        (u8 (DSP_BMODE h), SB16_WRITE_PORT h);
        (lo_byte (BUF_SIZE / BUF_DIM - 1), SB16_WRITE_PORT h);
        (hi_byte (BUF_SIZE / BUF_DIM - 1), SB16_WRITE_PORT h) ].
Proof.
  intros H Hr. apply sb16_init_inv in H.
  destruct H as [(E & _) | (blk & f & w1 & e1 & -> & Ep & Hidle & -> & Hw1 & H)];
    [contradiction|].
  apply start_playback_inv in H. destruct H as (e2 & -> & -> & Hw2).
  exists blk, f, (e1 ++ e2).
  split; [reflexivity|]. split; [exact Ep|]. split; [reflexivity|].
  split; [exact Hidle|]. split.
  - cbn [extend trace]. rewrite app_assoc. reflexivity.
  - rewrite writes_app, Hw1, Hw2, !u8_lo_byte, !u8_hi_byte, !u8_u8.
    reflexivity.
Qed.

(** C1 on the code: a card that never sends the ready byte does not stop
    [sb16_init].  The handshake returns -2, the test against -1 lets it
    pass, and with an acceptable header the run goes on to program the DMA
    controller and the codec, marks the card busy and returns the buffer
    address. *)
Theorem sb16_init_misses_failed_reset blk f w w1 :
  budget_ok h fuel ->
  writes_complete h card fuel ->
  in_use w = 0 ->
  polls_fail h card fuel (S (Z.to_nat (WAITLOOP h)))
             (pulsed h (extend w [EnableIrq (SB16_IRQ_LINE h)])) w1 ->
  parse h blk = Some f ->
  tag_ok h f -> f_format f = 1 -> f_nchannels f = 2 -> f_bpsample f = 16 ->
  exists w' evs,
    sb16_init h card fuel (Some blk) w = Done (sint32 (buffer h)) w' /\
    in_use w' = 1 /\
    trace w' = trace w1 ++ evs /\
    In (DMA_START_MASK h, DMA_MASK_PORT h) (writes evs) /\
    In (u8 (DSP_OUT_RATE_CMD h), SB16_WRITE_PORT h) (writes evs).
Proof.
  intros B Hc Hidle Hfail Ep Ht Hf Hn Hb.
  pose proof (sb16_reset_exhausted h card fuel _ _ B Hfail) as Hrs.
  rewrite (sb16_init_past_reset h card fuel (Some blk) w (-2) w1 Hidle Hrs)
    by discriminate.
  rewrite Ep. unfold tag_ok in Ht. rewrite Ht, Hf, Hn, Hb, Z.eqb_refl.
  cbn [Z.eqb Pos.eqb negb orb NCHANNELS _16BITS].
  destruct (start_playback_returns h card fuel (f_sample_rate f) w1 Hc)
    as (w' & E).
  pose proof (start_playback_inv _ _ _ _ _ _ _ E) as (evs & _ & Hw' & Hw).
  exists w', evs. split; [exact E|]. subst w'. cbn [in_use trace].
  split; [reflexivity|]. split; [reflexivity|].
  rewrite Hw. split.
  - apply in_or_app. left. cbn. tauto.
  - apply in_or_app. right. cbn. tauto.
Qed.

End InitTheorems.

(** The mute card is polled four times, and the run goes on to start the
    playback of [cd_header]. *)
Lemma sb16_init_misses_failed_reset_witness :
  exists w' evs,
    sb16_init sb16_at_220 card_mute 5 (Some cd_header) boot
    = Done (sint32 (buffer sb16_at_220)) w' /\
    in_use w' = 1 /\
    trace w' =
      [EnableIrq 5; Outb 1 0x226; Outb 0 0x226;
       Inb 0x22E 0xFF; Inb 0x22A 0; Inb 0x22E 0xFF; Inb 0x22A 0;
       Inb 0x22E 0xFF; Inb 0x22A 0; Inb 0x22E 0xFF; Inb 0x22A 0] ++ evs /\
    In (DMA_START_MASK sb16_at_220, DMA_MASK_PORT sb16_at_220) (writes evs) /\
    In (u8 (DSP_OUT_RATE_CMD sb16_at_220), SB16_WRITE_PORT sb16_at_220) (writes evs).
Proof.
  eapply (sb16_init_misses_failed_reset sb16_at_220 card_mute 5 cd_header _ boot
            (extend boot
               [EnableIrq 5; Outb 1 0x226; Outb 0 0x226;
                Inb 0x22E 0xFF; Inb 0x22A 0; Inb 0x22E 0xFF; Inb 0x22A 0;
                Inb 0x22E 0xFF; Inb 0x22A 0; Inb 0x22E 0xFF; Inb 0x22A 0])).
  - unfold budget_ok. cbn. lia.
  - intros w. vm_compute. discriminate.
  - reflexivity.
  - cbn [WAITLOOP sb16_at_220 Z.to_nat Pos.to_nat Pos.iter_op Nat.add polls_fail].
    eexists _, _. split; [reflexivity|]. split; [vm_compute; discriminate|].
    eexists _, _. split; [reflexivity|]. split; [vm_compute; discriminate|].
    eexists _, _. split; [reflexivity|]. split; [vm_compute; discriminate|].
    eexists _, _. split; [reflexivity|]. split; [vm_compute; discriminate|].
    vm_compute. reflexivity.
  - vm_compute. reflexivity.
  - vm_compute. reflexivity.
  - reflexivity.
  - reflexivity.
  - reflexivity.
Defined.

(** ** Header validation and the error paths *)

Section ValidationTheorems.

Variable h : sb16_h.
Variable card : device.
Variable fuel : nat.

Lemma start_playback_not_rejected sample_rate w m :
  start_playback h card fuel sample_rate w <> Done (-1) (extend w [Printf m]).
Proof.
  intros H. apply start_playback_inv in H.
  destruct H as (evs & _ & Hw & Hwr).
  apply (f_equal trace) in Hw. cbn [extend trace] in Hw.
  apply app_inv_head in Hw. subst evs. discriminate Hwr.
Qed.

(** C3, as the code has it.  Once the card is idle and reset, a header
    whose fields lie inside the block is judged in this order: a container
    tag that does not compare equal after [strrev] gives "Not a wav file";
    otherwise a format code other than 1 gives "Only uncompressed music is
    supported"; otherwise a channel count other than 2 or a bit depth other
    than 16 gives the one diagnostic "Only 16-bit stereo audio is
    supported"; otherwise the header is accepted, whatever its sample rate,
    and the run continues with [start_playback], which is never one of the
    rejections. *)
Theorem sb16_init_header_checks blk f w rs w1 :
  in_use w = 0 ->
  sb16_reset h card fuel (extend w [EnableIrq (SB16_IRQ_LINE h)]) = Done rs w1 ->
  rs <> -1 ->
  parse h blk = Some f ->
  (~ tag_ok h f ->
     sb16_init h card fuel (Some blk) w = Done (-1) (extend w1 [Printf MsgNotWav])) /\
  (tag_ok h f -> f_format f <> 1 ->
     sb16_init h card fuel (Some blk) w = Done (-1) (extend w1 [Printf MsgCompressed])) /\
  (tag_ok h f -> f_format f = 1 -> f_nchannels f <> 2 \/ f_bpsample f <> 16 ->
     sb16_init h card fuel (Some blk) w = Done (-1) (extend w1 [Printf MsgNot16Stereo])) /\
  (tag_ok h f -> f_format f = 1 -> f_nchannels f = 2 -> f_bpsample f = 16 ->
     sb16_init h card fuel (Some blk) w
     = start_playback h card fuel (f_sample_rate f) w1 /\
     forall m, sb16_init h card fuel (Some blk) w
               <> Done (-1) (extend w1 [Printf m])).
Proof.
  intros Hidle Hrs Hne Ep.
  pose proof (sb16_init_past_reset h card fuel (Some blk) w rs w1 Hidle Hrs Hne)
    as E.
  cbv beta iota in E. rewrite Ep in E. rewrite E. clear E. unfold tag_ok.
  change NCHANNELS with 2. change _16BITS with 16.
  destruct (Z.eqb_spec (load32 (strrev (f_tag f ++ [x00]))) (WAV_MAGIC h)) as [Et|Et];
    cbn [negb].
  2:{ split; [reflexivity|]. repeat split; intros; contradiction. }
  split; [intros; contradiction|].
  destruct (Z.eqb_spec (f_format f) 1) as [Ef|Ef]; cbn [negb].
  2:{ split; [reflexivity|]. repeat split; intros; contradiction. }
  split; [intros; contradiction|].
  destruct (Z.eqb_spec (f_nchannels f) 2) as [En|En]; cbn [negb orb].
  2:{ split; [reflexivity|]. intros; contradiction. }
  destruct (Z.eqb_spec (f_bpsample f) 16) as [Eb|Eb]; cbn [negb].
  2:{ split; [reflexivity|]. intros; contradiction. }
  split; [intros _ _ [N|N]; contradiction|].
  intros _ _ _ _. split; [reflexivity|].
  intros m. apply start_playback_not_rejected.
Qed.

(** C7: a call on a busy card returns -1 at once, and every return of -1,
    on whichever path, leaves [in_use] and [int_flag] as they were.  (-1 is
    an error return as long as the buffer does not lie at 0xFFFFFFFF.) *)
Theorem sb16_init_errors_keep_state info_block w :
  sint32 (buffer h) <> -1 ->
  (in_use w <> 0 ->
     sb16_init h card fuel info_block w
     = Done (-1) (extend w [EnableIrq (SB16_IRQ_LINE h); Printf MsgInUse])) /\
  (forall w', sb16_init h card fuel info_block w = Done (-1) w' ->
     in_use w' = in_use w /\ int_flag w' = int_flag w).
Proof.
  intros Hbuf. split; [apply sb16_init_busy|].
  intros w' H. apply sb16_init_inv in H.
  destruct H as [(_ & evs & -> & _) | (blk & f & w1 & e1 & _ & _ & _ & _ & _ & H)].
  - split; reflexivity.
  - apply start_playback_inv in H. destruct H as (_ & E & _).
    symmetry in E. contradiction.
Qed.

Lemma sb16_shutdown_run w rs w1 :
  sb16_reset h card fuel w = Done rs w1 ->
  sb16_shutdown h card fuel w
  = Done 0 {| in_use := 0; int_flag := 1; trace := trace w1 |}.
Proof.
  intros Hrs. unfold sb16_shutdown. rewrite (bind_step _ _ _ _ _ Hrs).
  reflexivity.
Qed.

Lemma sb16_shutdown_inv w r w' :
  sb16_shutdown h card fuel w = Done r w' ->
  exists rs w1,
    sb16_reset h card fuel w = Done rs w1 /\
    r = 0 /\ w' = {| in_use := 0; int_flag := 1; trace := trace w1 |}.
Proof.
  unfold sb16_shutdown. intros H. apply bind_done in H.
  destruct H as (rs & w1 & Hrs & H).
  cbv [bind set_in_use set_int_flag ret] in H. inversion H; subst.
  exists rs, w1. split; [exact Hrs|]. split; reflexivity.
Qed.

(** What the polls of a handshake started in [w] must do for it to return:
    bring the ready byte on one of the [WAITLOOP + 1] polls, or bring
    another byte on each of them. *)
Lemma sb16_reset_answered w w1 :
  budget_ok h fuel ->
  (exists k, (1 <= k <= S (Z.to_nat (WAITLOOP h)))%nat /\
             first_ready h card fuel k (pulsed h w) w1) \/
  polls_fail h card fuel (S (Z.to_nat (WAITLOOP h))) (pulsed h w) w1 ->
  exists rs, sb16_reset h card fuel w = Done rs w1.
Proof.
  intros B [(k & Hk & Hfr) | Hfail].
  - eexists. apply (sb16_reset_ready_at h card fuel w k w1 B Hk Hfr).
  - eexists. apply (sb16_reset_exhausted h card fuel w w1 B Hfail).
Qed.


(** C8, as the code has it.  On every card and from every state, whenever
    [sb16_shutdown] returns it returns 0 and leaves [in_use] at 0 and
    [int_flag] at 1, and a second call that returns gives the same value
    and the same two globals.  It returns exactly when its reset handshake
    does, that is when each poll of the handshake is answered: the wait
    for a byte in [dsp_read] has no bound, so on a card that never shows
    one the call does not come back. *)
Theorem sb16_shutdown_baseline w :
  (forall r w',
     sb16_shutdown h card fuel w = Done r w' ->
     r = 0 /\ in_use w' = 0 /\ int_flag w' = 1 /\
     forall r2 w'',
       sb16_shutdown h card fuel w' = Done r2 w'' ->
       r2 = r /\ in_use w'' = in_use w' /\ int_flag w'' = int_flag w') /\
  ((exists r w', sb16_shutdown h card fuel w = Done r w') <->
   (exists rs w1, sb16_reset h card fuel w = Done rs w1)) /\
  (budget_ok h fuel ->
   forall w1,
     (exists k, (1 <= k <= S (Z.to_nat (WAITLOOP h)))%nat /\
                first_ready h card fuel k (pulsed h w) w1) \/
     polls_fail h card fuel (S (Z.to_nat (WAITLOOP h))) (pulsed h w) w1 ->
     sb16_shutdown h card fuel w
     = Done 0 {| in_use := 0; int_flag := 1; trace := trace w1 |}).
Proof.
  split; [|split].
  - intros r w' H. apply sb16_shutdown_inv in H.
    destruct H as (rs & w1 & _ & -> & ->).
    split; [reflexivity|]. split; [reflexivity|]. split; [reflexivity|].
    intros r2 w'' H2. apply sb16_shutdown_inv in H2.
    destruct H2 as (rs2 & w2 & _ & -> & ->). repeat split.
  - split.
    + intros (r & w' & H). apply sb16_shutdown_inv in H.
      destruct H as (rs & w1 & Hrs & _). eauto.
    + intros (rs & w1 & Hrs). rewrite (sb16_shutdown_run w rs w1 Hrs). eauto.
  - intros B w1 Hpolls.
    destruct (sb16_reset_answered w w1 B Hpolls) as (rs & Hrs).
    apply (sb16_shutdown_run w rs w1 Hrs).
Qed.

End ValidationTheorems.

(** The world of the example card after interrupts were enabled and the
    reset handshake was answered on the first poll. *)
Lemma reset_of_ready_card :
  sb16_reset sb16_at_220 card_ready 5 (extend boot [EnableIrq 5])
  = Done 2 (extend boot [EnableIrq 5; Outb 1 0x226; Outb 0 0x226;
                         Inb 0x22E 0xFF; Inb 0x22A 0xAA]).
Proof. reflexivity. Qed.

(** The header of the specification's end-to-end example, format 0x0011,
    is rejected as compressed. *)
Lemma sb16_init_header_checks_witness :
  sb16_init sb16_at_220 card_ready 5
            (Some (wav_header x57 x11 x02 x44 xac x10)) boot
  = Done (-1) (extend boot [EnableIrq 5; Outb 1 0x226; Outb 0 0x226;
                            Inb 0x22E 0xFF; Inb 0x22A 0xAA;
                            Printf MsgCompressed]).
Proof.
  pose (f := {| f_tag := [x57; x41; x56; x45]; f_format := 17;
                f_nchannels := 2; f_bpsample := 16; f_sample_rate := 44100 |}).
  assert (Hidle : in_use boot = 0) by reflexivity.
  assert (Hne : 2 <> -1) by discriminate.
  assert (Ep : parse sb16_at_220 (wav_header x57 x11 x02 x44 xac x10) = Some f)
    by reflexivity.
  destruct (sb16_init_header_checks sb16_at_220 card_ready 5 _ f boot 2 _
              Hidle reset_of_ready_card Hne Ep) as (_ & Hc & _).
  rewrite Hc.
  - reflexivity.
  - reflexivity.
  - discriminate.
Defined.

(** C3 as the specification orders the checks fails on a header with a
    wrong tag and a format code other than 1: the claimed order reports the
    format, the code reports "Not a wav file". *)
Lemma claimed_header_priority_fails :
  ~ claimed_header_priority sb16_at_220 card_ready 5.
Proof.
  intros Hc.
  pose (f := {| f_tag := [x58; x41; x56; x45]; f_format := 17;
                f_nchannels := 2; f_bpsample := 16; f_sample_rate := 44100 |}).
  destruct (Hc (wav_header x58 x11 x02 x44 xac x10) f boot (-1)
               (extend boot [EnableIrq 5; Outb 1 0x226; Outb 0 0x226;
                             Inb 0x22E 0xFF; Inb 0x22A 0xAA; Printf MsgNotWav]))
    as (_ & E).
  - reflexivity.
  - reflexivity.
  - reflexivity.
  - discriminate.
  - vm_compute in E. discriminate E.
Qed.

(** The rejected header of the example above leaves both globals alone. *)
Lemma sb16_init_errors_keep_state_witness :
  let w' := extend boot [EnableIrq 5; Outb 1 0x226; Outb 0 0x226;
                         Inb 0x22E 0xFF; Inb 0x22A 0xAA; Printf MsgCompressed] in
  sint32 (buffer sb16_at_220) <> -1 /\
  sb16_init sb16_at_220 card_ready 5
            (Some (wav_header x57 x11 x02 x44 xac x10)) boot = Done (-1) w' /\
  in_use w' = in_use boot /\ int_flag w' = int_flag boot.
Proof.
  intros w'.
  assert (Hbuf : sint32 (buffer sb16_at_220) <> -1) by (vm_compute; discriminate).
  split; [exact Hbuf|]. split; [reflexivity|].
  destruct (sb16_init_errors_keep_state sb16_at_220 card_ready 5
              (Some (wav_header x57 x11 x02 x44 xac x10)) boot Hbuf) as (_ & H).
  apply H. reflexivity.
Defined.

(** ** The programming sequences *)

Section SequenceTheorems.

Variable h : sb16_h.
Variable card : device.
Variable fuel : nat.

(** C4, as the code has it.  [dma_init] writes, in this order: the stop
    mask, the flip-flop clear, the mode, the offset low then high, the
    count low then high, the page, the start mask; so the count goes out
    before the page.  In a successful [sb16_init] these nine writes follow
    the two writes of the reset port and precede the writes to the codec,
    and the count is [BUF_SIZE - 1 = 32767]: one less than the bytes of one
    buffer half, which is one less than the 16-bit words of the whole
    buffer. *)
Theorem dma_init_sequence :
  (forall off len page w,
     dma_init h off len page w =
     Done tt (extend w
       [ Outb (DMA_STOP_MASK h) (DMA_MASK_PORT h);
         Outb 0 (DMA_CLR_PTR_PORT h);
         Outb (DMA_MODE h) (DMA_MODE_PORT h);
         Outb (lo_byte off) (DMA_BASE_ADDR h);
         Outb (hi_byte off) (DMA_BASE_ADDR h);
         Outb (lo_byte len) (DMA_COUNT_PORT h);
         Outb (hi_byte len) (DMA_COUNT_PORT h);
         Outb page (DMA_PAGE_PORT h);
         Outb (DMA_START_MASK h) (DMA_MASK_PORT h) ])) /\
  (forall info_block w r w',
     sb16_init h card fuel info_block w = Done r w' -> r <> -1 ->
     exists evs post,
       trace w' = trace w ++ evs /\
       writes evs =
         [ (1, SB16_RESET_PORT h); (0, SB16_RESET_PORT h) ] ++
         [ (DMA_STOP_MASK h, DMA_MASK_PORT h);
           (0, DMA_CLR_PTR_PORT h);
           (DMA_MODE h, DMA_MODE_PORT h);
           (lo_byte (buf_offset (buffer h)), DMA_BASE_ADDR h);
           (hi_byte (buf_offset (buffer h)), DMA_BASE_ADDR h);
           (lo_byte (bufferHalfBytes - 1), DMA_COUNT_PORT h);
           (hi_byte (bufferHalfBytes - 1), DMA_COUNT_PORT h);
           (buf_page (buffer h), DMA_PAGE_PORT h);
           (DMA_START_MASK h, DMA_MASK_PORT h) ] ++ post /\
       Forall (fun vp => snd vp = SB16_WRITE_PORT h) post) /\
  word_of (lo_byte (bufferHalfBytes - 1)) (hi_byte (bufferHalfBytes - 1))
  = bufferHalfBytes - 1 /\
  bufferHalfBytes - 1 = 32767 /\
  2 * (bufferHalfBytes - 1 + 1) = BUF_DIM * BUF_SIZE.
Proof.
  split; [apply dma_init_run|]. split; [|repeat split].
  intros info_block w r w' H Hr.
  destruct (sb16_init_success_writes h card fuel _ _ _ _ H Hr)
    as (blk & f & evs & _ & _ & _ & _ & -> & Hw).
  eexists evs, _. split; [reflexivity|]. split; [exact Hw|].
  repeat constructor.
Qed.

(** C5, as the code has it.  Whenever [dsp_init] returns it has written to
    the codec, in this order: the output-rate opcode, the sample rate high
    byte then low byte, the playback opcode, the mode byte, the block
    length low byte then high byte; and it returns if the card answers the
    write waits.  In a successful [sb16_init] these seven writes are the
    last ones, the rate is the one read from the header, and the block
    length is [BUF_SIZE / BUF_DIM - 1 = 16383]: one less than the 16-bit
    samples of one buffer half with both channels counted, that is one less
    than twice the samples per channel. *)
Theorem dsp_init_sequence :
  (forall sample_rate bcommand bmode block_length w w',
     dsp_init h card fuel sample_rate bcommand bmode block_length w = Done tt w' ->
     exists evs,
       w' = extend w evs /\
       writes evs =
         [ (u8 (DSP_OUT_RATE_CMD h), SB16_WRITE_PORT h);
           (hi_byte sample_rate, SB16_WRITE_PORT h);
           (lo_byte sample_rate, SB16_WRITE_PORT h);
           (u8 bcommand, SB16_WRITE_PORT h);
           (u8 bmode, SB16_WRITE_PORT h);
           (lo_byte block_length, SB16_WRITE_PORT h);
           (hi_byte block_length, SB16_WRITE_PORT h) ]) /\
  (writes_complete h card fuel ->
   forall sample_rate bcommand bmode block_length w,
     exists w',
       dsp_init h card fuel sample_rate bcommand bmode block_length w = Done tt w') /\
  (forall info_block w r w',
     sb16_init h card fuel info_block w = Done r w' -> r <> -1 ->
     exists blk f evs pre,
       info_block = Some blk /\ parse h blk = Some f /\
       trace w' = trace w ++ evs /\
       writes evs =
         pre ++
         [ (u8 (DSP_OUT_RATE_CMD h), SB16_WRITE_PORT h);
           (hi_byte (f_sample_rate f), SB16_WRITE_PORT h);
           (lo_byte (f_sample_rate f), SB16_WRITE_PORT h);
           (u8 (DSP_BCOMMAND h), SB16_WRITE_PORT h);
           (u8 (DSP_BMODE h), SB16_WRITE_PORT h);
           (lo_byte (samples_per_half - 1), SB16_WRITE_PORT h);
           (hi_byte (samples_per_half - 1), SB16_WRITE_PORT h) ]) /\
  word_of (lo_byte (samples_per_half - 1)) (hi_byte (samples_per_half - 1))
  = samples_per_half - 1 /\
  samples_per_half - 1 = BUF_SIZE / BUF_DIM - 1 /\
  samples_per_half - 1 = 16383 /\
  samples_per_half = 2 * samples_per_channel_per_half.
Proof.
  split; [|split; [|split; [|repeat split]]].
  - intros sample_rate bcommand bmode block_length w w' H.
    apply dsp_init_bus in H. destruct H as (evs & -> & Hw).
    exists evs. split; [reflexivity|].
    rewrite Hw, !u8_lo_byte, !u8_hi_byte. reflexivity.
  - intros Hc sample_rate bcommand bmode block_length w.
    apply dsp_init_returns. exact Hc.
  - intros info_block w r w' H Hr.
    destruct (sb16_init_success_writes h card fuel _ _ _ _ H Hr)
      as (blk & f & evs & -> & Ep & _ & _ & -> & Hw).
    eexists blk, f, evs, _. split; [reflexivity|]. split; [exact Ep|].
    split; [reflexivity|]. rewrite Hw, app_assoc. reflexivity.
Qed.

(** One interrupt, on any state. *)
Lemma sb16_interrupt_run w :
  sb16_interrupt h card w =
  Done tt {| in_use := in_use w;
             int_flag := if int_flag w =? 0 then 1 else 0;
             trace := trace w ++
               [ Cli;
                 Inb (SB16_POLL_PORT_16 h)
                     (u8 (card (trace w ++ [Cli]) (SB16_POLL_PORT_16 h)));
                 SendEoi (SB16_IRQ_LINE h);
                 Sti ] |}.
Proof.
  unfold sb16_interrupt, cli, sti, send_eoi, inb, bind, emit, ret,
    get_int_flag, set_int_flag.
  cbn. repeat rewrite <- app_assoc. reflexivity.
Qed.

Lemma interrupts_run n : forall w,
  int_flag w = 0 \/ int_flag w = 1 ->
  exists w',
    interrupts h card n w = Done tt w' /\
    in_use w' = in_use w /\
    int_flag w' = if Nat.even n then int_flag w else 1 - int_flag w.
Proof.
  induction n as [|n IH]; intros w Hf.
  - exists w. cbn. auto.
  - cbn [interrupts]. rewrite (bind_step _ _ _ _ _ (sb16_interrupt_run w)).
    match goal with |- context [interrupts h card n ?w1] =>
      destruct (IH w1) as (w' & Hrun & Hu & Hi) end.
    { cbn [int_flag]. destruct Hf as [-> | ->]; cbn; auto. }
    exists w'. split; [exact Hrun|]. split; [exact Hu|].
    rewrite Hi. cbn [int_flag]. rewrite Nat.even_succ, <- Nat.negb_even.
    destruct (Nat.even n); destruct Hf as [-> | ->]; reflexivity.
Qed.

(** C6: one interrupt negates [int_flag], leaves [in_use] alone and adds
    only the acknowledge read and the end-of-interrupt to the bus history;
    starting from the baseline 1, the status read after [n] interrupts is 1
    for even [n] and 0 for odd [n], so it is the baseline exactly for even
    [n] and differs from one interrupt to the next. *)
Theorem sb16_interrupt_toggles w :
  int_flag w = 1 ->
  (forall w0, exists w1,
     sb16_interrupt h card w0 = Done tt w1 /\
     int_flag w1 = (if int_flag w0 =? 0 then 1 else 0) /\
     in_use w1 = in_use w0 /\
     writes (trace w1) = writes (trace w0)) /\
  (forall n, status_after h card n w = Some (if Nat.even n then 1 else 0)) /\
  (forall n, status_after h card n w = Some 1 <-> Nat.even n = true) /\
  (forall n, status_after h card (S n) w <> status_after h card n w).
Proof.
  intros Hbase.
  assert (Hs : forall n, status_after h card n w
                         = Some (if Nat.even n then 1 else 0)).
  { intros n. unfold status_after.
    destruct (interrupts_run n w (or_intror Hbase)) as (w' & Hrun & _ & Hi).
    rewrite (bind_step _ _ _ _ _ Hrun). cbn. rewrite Hi, Hbase.
    destruct (Nat.even n); reflexivity. }
  split; [|split; [exact Hs|split]].
  - intros w0. eexists. split; [apply sb16_interrupt_run|].
    cbn [int_flag in_use trace]. split; [reflexivity|]. split; [reflexivity|].
    rewrite writes_app. cbn. apply app_nil_r.
  - intros n. rewrite Hs. destruct (Nat.even n); split; congruence.
  - intros n. rewrite !Hs, Nat.even_succ, <- Nat.negb_even.
    destruct (Nat.even n); discriminate.
Qed.

End SequenceTheorems.

(** ** Buffer placement *)

Lemma within_64k_valid A :
  0 <= A < 2 ^ 24 -> within_64k A (BUF_DIM * BUF_SIZE) ->
  valid_buffer_address A.
Proof.
  unfold within_64k, valid_buffer_address. change (BUF_DIM * BUF_SIZE) with 65536.
  intros HA H. split; [exact HA|].
  Z.div_mod_to_equations. lia.
Qed.

(** C9: for a word-aligned buffer address below 16 MiB the offset is
    [(A >> 1) mod 65536], the page is [A >> 16], and the address the DMA
    channel forms from the two is [A] again. *)
Theorem buffer_placement A :
  valid_buffer_address A ->
  buf_offset A = Z.shiftr A 1 mod 65536 /\
  buf_page A = Z.shiftr A 16 /\
  dma16_address (buf_offset A) (buf_page A) = A.
Proof.
  intros [HA Heven]. change (2 ^ 24) with 16777216 in HA.
  assert (Eo : buf_offset A = Z.shiftr A 1 mod 65536).
  { unfold buf_offset, u16, u32, TWOTO16. change (2 ^ 16) with 65536.
    rewrite (Z.mod_small A) by (change (2 ^ 32) with 4294967296; lia).
    apply Z.mod_mod. lia. }
  assert (Ep : buf_page A = Z.shiftr A 16).
  { unfold buf_page, u8, u32, _16BITS.
    rewrite (Z.mod_small A) by (change (2 ^ 32) with 4294967296; lia).
    rewrite Z.shiftr_div_pow2 by lia.
    change (2 ^ 16) with 65536. change (2 ^ 8) with 256.
    apply Z.mod_small. Z.div_mod_to_equations. lia. }
  split; [exact Eo|]. split; [exact Ep|].
  rewrite Eo, Ep. unfold dma16_address.
  rewrite !Z.shiftr_div_pow2, !Z.shiftl_mul_pow2 by lia.
  change (2 ^ 1) with 2. change (2 ^ 16) with 65536. change (2 ^ 17) with 131072.
  Z.div_mod_to_equations. lia.
Qed.

(** Hence two valid addresses with the same offset and page are equal. *)
Lemma buffer_placement_injective A B :
  valid_buffer_address A -> valid_buffer_address B ->
  buf_offset A = buf_offset B -> buf_page A = buf_page B -> A = B.
Proof.
  intros [HA EA] [HB EB] Ho Hp. change (2 ^ 24) with 16777216 in HA, HB.
  unfold buf_offset, buf_page, u8, u16, u32, TWOTO16, _16BITS in Ho, Hp.
  rewrite (Z.mod_small A), (Z.mod_small B) in Ho, Hp
    by (change (2 ^ 32) with 4294967296; lia).
  rewrite !Z.shiftr_div_pow2 in Ho, Hp by lia.
  change (2 ^ 1) with 2 in Ho. change (2 ^ 16) with 65536 in Ho, Hp.
  change (2 ^ 8) with 256 in Hp.
  Z.div_mod_to_equations. lia.
Qed.

(** A tag without a NUL byte is compared as the big-endian number its four
    bytes spell. *)
Lemma tag_compared_big_endian b0 b1 b2 b3 :
  b0 <> x00 -> b1 <> x00 -> b2 <> x00 -> b3 <> x00 ->
  load32 (strrev ([b0; b1; b2; b3] ++ [x00])) = be_val [b0; b1; b2; b3].
Proof.
  intros H0 H1 H2 H3.
  assert (E : forall b, b <> x00 -> Byte.eqb b x00 = false).
  { intros b Hb. destruct (Byte.eqb b x00) eqn:Eb; [|reflexivity].
    apply Byte.byte_dec_bl in Eb. contradiction. }
  unfold strrev. cbn [app strlen].
  rewrite (E b0 H0), (E b1 H1), (E b2 H2), (E b3 H3).
  reflexivity.
Qed.

(** ** The example runs *)

(** The successful run of the example: [cd_header] on the ready card. *)
Lemma cd_playing_run :
  sb16_init sb16_at_220 card_ready 5 (Some cd_header) boot
  = Done 0x130000 cd_playing.
Proof. vm_compute. reflexivity. Qed.

(** Its port writes start with the reset pulse and the DMA programming. *)
Lemma dma_init_sequence_witness :
  sb16_init sb16_at_220 card_ready 5 (Some cd_header) boot
  = Done 0x130000 cd_playing /\
  0x130000 <> -1 /\
  exists evs post,
    trace cd_playing = trace boot ++ evs /\
    writes evs =
      [ (1, 0x226); (0, 0x226) ] ++
      [ (0x05, 0xD4); (0, 0xD8); (0x59, 0xD6); (0x00, 0xC4); (0x80, 0xC4);
        (0xFF, 0xC6); (0x7F, 0xC6); (0x13, 0x8B); (0x01, 0xD4) ] ++ post /\
    Forall (fun vp => snd vp = 0x22C) post.
Proof.
  assert (N : 0x130000 <> -1) by discriminate.
  split; [exact cd_playing_run|]. split; [exact N|].
  destruct (dma_init_sequence sb16_at_220 card_ready 5) as (_ & H & _).
  exact (H (Some cd_header) boot 0x130000 cd_playing cd_playing_run N).
Defined.

(** C4 as the specification words it, next to what the example run writes:
    the page comes after the count, not before it, and the count is 0x7FFF,
    not 0xFFFF. *)
Lemma claimed_dma_writes_differ :
  exists w',
    dma_init sb16_at_220 (buf_offset (buffer sb16_at_220)) (u16 (BUF_SIZE - 1))
             (buf_page (buffer sb16_at_220)) boot = Done tt w' /\
    writes (trace w') =
      [ (0x05, 0xD4); (0, 0xD8); (0x59, 0xD6); (0x00, 0xC4); (0x80, 0xC4);
        (0xFF, 0xC6); (0x7F, 0xC6); (0x13, 0x8B); (0x01, 0xD4) ] /\
    claimed_dma_writes sb16_at_220 =
      [ (0x05, 0xD4); (0, 0xD8); (0x59, 0xD6); (0x00, 0xC4); (0x80, 0xC4);
        (0x13, 0x8B); (0xFF, 0xC6); (0xFF, 0xC6); (0x01, 0xD4) ] /\
    writes (trace w') <> claimed_dma_writes sb16_at_220.
Proof.
  eexists. split; [reflexivity|]. split; [reflexivity|].
  split; [reflexivity|]. vm_compute. discriminate.
Qed.

(** Its port writes end with the codec programming: 44100 = 0xAC44 high
    byte first, block length 0x3FFF low byte first. *)
Lemma dsp_init_sequence_witness :
  sb16_init sb16_at_220 card_ready 5 (Some cd_header) boot
  = Done 0x130000 cd_playing /\
  0x130000 <> -1 /\
  exists evs pre,
    trace cd_playing = trace boot ++ evs /\
    writes evs =
      pre ++
      [ (0x41, 0x22C); (0xAC, 0x22C); (0x44, 0x22C); (0xB6, 0x22C);
        (0x30, 0x22C); (0xFF, 0x22C); (0x3F, 0x22C) ].
Proof.
  assert (N : 0x130000 <> -1) by discriminate.
  split; [exact cd_playing_run|]. split; [exact N|].
  destruct (dsp_init_sequence sb16_at_220 card_ready 5) as (_ & _ & H & _).
  destruct (H (Some cd_header) boot 0x130000 cd_playing cd_playing_run N)
    as (blk & f & evs & pre & Eb & Ep & Et & Ew).
  exists evs, pre. split; [exact Et|].
  inversion Eb; subst blk. vm_compute in Ep. inversion Ep; subst f.
  exact Ew.
Defined.

(** C5 as the specification words it fails on the example run: the block
    length written is 0x3FFF = 16383, the samples per channel in one half
    are 8192. *)
Lemma claimed_block_length_fails :
  ~ claimed_block_length sb16_at_220 card_ready 5.
Proof.
  intros Hc.
  destruct (sb16_init sb16_at_220 card_ready 5 (Some cd_header) boot)
    as [r w'| |] eqn:E; try (vm_compute in E; discriminate).
  pose proof E as E0. vm_compute in E0. inversion E0; subst r w'. clear E0.
  specialize (Hc cd_header _ _
    [ (1, 0x226); (0, 0x226);
      (0x05, 0xD4); (0, 0xD8); (0x59, 0xD6); (0x00, 0xC4); (0x80, 0xC4);
      (0xFF, 0xC6); (0x7F, 0xC6); (0x13, 0x8B); (0x01, 0xD4);
      (0x41, 0x22C); (0xAC, 0x22C); (0x44, 0x22C); (0xB6, 0x22C); (0x30, 0x22C) ]
    0xFF 0x3F E ltac:(discriminate) eq_refl).
  vm_compute in Hc. discriminate Hc.
Qed.

(** Three and four interrupts after boot. *)
Lemma sb16_interrupt_toggles_witness :
  int_flag boot = 1 /\
  status_after sb16_at_220 card_ready 3 boot = Some 0 /\
  status_after sb16_at_220 card_ready 4 boot = Some 1.
Proof.
  assert (Hb : int_flag boot = 1) by reflexivity.
  destruct (sb16_interrupt_toggles sb16_at_220 card_ready boot Hb)
    as (_ & Hs & _).
  split; [exact Hb|]. split; [apply (Hs 3%nat) | apply (Hs 4%nat)].
Defined.

(** The buffer of the example card at 0x130000. *)
Lemma buffer_placement_witness :
  valid_buffer_address 0x130000 /\
  buf_offset 0x130000 = 0x8000 /\
  buf_page 0x130000 = 0x13 /\
  dma16_address (buf_offset 0x130000) (buf_page 0x130000) = 0x130000.
Proof.
  assert (Hv : valid_buffer_address 0x130000)
    by (unfold valid_buffer_address; split; [cbn; lia | reflexivity]).
  split; [exact Hv|].
  exact (buffer_placement 0x130000 Hv).
Defined.

(** ** More about the codec access functions *)

(** X1: [lo_byte] and [hi_byte] are bytes, and together they give back the
    word, taken as the [uint16_t] the two functions receive. *)
Theorem lo_hi_byte_round_trip word :
  0 <= lo_byte word < 256 /\
  0 <= hi_byte word < 256 /\
  word_of (lo_byte word) (hi_byte word) = u16 word.
Proof.
  unfold lo_byte, hi_byte, store16, word_of, u16. cbn [nth].
  change (2 ^ 16) with 65536.
  pose proof (Z.mod_pos_bound word 65536 ltac:(lia)).
  Z.div_mod_to_equations. lia.
Qed.

Section AccessTheorems.

Variable h : sb16_h.
Variable card : device.
Variable fuel : nat.

Lemma dsp_read_wait_shape n : forall w w',
  dsp_read_wait h card n w = Done tt w' ->
  exists waits vr,
    w' = extend w (map (Inb (SB16_POLL_PORT h)) waits ++ [Inb (SB16_POLL_PORT h) vr]) /\
    Forall (fun x => Z.land x (BUF_RDY_VAL h) = 0) waits /\
    Z.land vr (BUF_RDY_VAL h) <> 0 /\
    (length waits < n)%nat.
Proof.
  induction n as [|n IH]; intros w w' H; [discriminate|].
  cbn [dsp_read_wait] in H.
  rewrite (bind_step _ _ _ _ _ (inb_extend card _ w)) in H.
  destruct (Z.eqb_spec (Z.land (u8 (card (trace w) (SB16_POLL_PORT h)))
                               (BUF_RDY_VAL h)) 0) as [E|E].
  - apply IH in H. destruct H as (waits & vr & -> & Hall & Hr & Hlen).
    exists (u8 (card (trace w) (SB16_POLL_PORT h)) :: waits), vr.
    split; [rewrite extend_extend; reflexivity|].
    split; [constructor; assumption|]. split; [exact Hr | cbn; lia].
  - inversion H; subst w'. exists [], (u8 (card (trace w) (SB16_POLL_PORT h))).
    split; [reflexivity|]. split; [constructor|]. split; [exact E | cbn; lia].
Qed.

(** X2: whenever [dsp_read] returns, it has read the poll port until the
    ready bit showed, fewer times than the iteration bound, and only then
    the read port, once; what it returns is the byte that read brought; it
    writes no port and leaves the globals alone. *)
Theorem dsp_read_protocol w v w' :
  dsp_read h card fuel w = Done v w' ->
  exists waits vr,
    w' = extend w (map (Inb (SB16_POLL_PORT h)) waits ++
                   [Inb (SB16_POLL_PORT h) vr; Inb (SB16_READ_PORT h) v]) /\
    Forall (fun x => Z.land x (BUF_RDY_VAL h) = 0) waits /\
    Z.land vr (BUF_RDY_VAL h) <> 0 /\
    (length waits < fuel)%nat /\
    0 <= v < 256.
Proof.
  unfold dsp_read. intros H.
  apply bind_done in H. destruct H as ([] & w1 & Hw & H).
  apply dsp_read_wait_shape in Hw.
  destruct Hw as (waits & vr & -> & Hall & Hr & Hlen).
  rewrite (bind_step _ _ _ _ _ (inb_extend card _ _)) in H.
  inversion H; subst v w'. clear H.
  exists waits, vr. split.
  - rewrite extend_extend, <- app_assoc. cbn [app].
    rewrite u8_u8. reflexivity.
  - split; [exact Hall|]. split; [exact Hr|]. split; [exact Hlen|].
    rewrite u8_u8. unfold u8. apply Z.mod_pos_bound. lia.
Qed.

Lemma dsp_write_wait_shape n : forall w w',
  dsp_write_wait h card n w = Done tt w' ->
  exists waits vr,
    w' = extend w (map (Inb (SB16_WRITE_PORT h)) waits ++ [Inb (SB16_WRITE_PORT h) vr]) /\
    Forall (fun x => Z.land x (BUF_RDY_VAL h) <> 0) waits /\
    Z.land vr (BUF_RDY_VAL h) = 0 /\
    (length waits < n)%nat.
Proof.
  induction n as [|n IH]; intros w w' H; [discriminate|].
  cbn [dsp_write_wait] in H.
  rewrite (bind_step _ _ _ _ _ (inb_extend card _ w)) in H.
  destruct (Z.eqb_spec (Z.land (u8 (card (trace w) (SB16_WRITE_PORT h)))
                               (BUF_RDY_VAL h)) 0) as [E|E].
  - inversion H; subst w'. exists [], (u8 (card (trace w) (SB16_WRITE_PORT h))).
    split; [reflexivity|]. split; [constructor|]. split; [exact E | cbn; lia].
  - apply IH in H. destruct H as (waits & vr & -> & Hall & Hr & Hlen).
    exists (u8 (card (trace w) (SB16_WRITE_PORT h)) :: waits), vr.
    split; [rewrite extend_extend; reflexivity|].
    split; [constructor; assumption|]. split; [exact Hr | cbn; lia].
Qed.

(** X3: whenever [dsp_write] returns, it has read the write port until the
    busy bit was clear, fewer times than the iteration bound, and then
    written the command, cut to a byte, to the same port, as the last thing
    it does. *)
Theorem dsp_write_protocol command w w' :
  dsp_write h card fuel command w = Done tt w' ->
  exists waits vr,
    w' = extend w (map (Inb (SB16_WRITE_PORT h)) waits ++
                   [Inb (SB16_WRITE_PORT h) vr;
                    Outb (command mod 256) (SB16_WRITE_PORT h)]) /\
    Forall (fun x => Z.land x (BUF_RDY_VAL h) <> 0) waits /\
    Z.land vr (BUF_RDY_VAL h) = 0 /\
    (length waits < fuel)%nat.
Proof.
  unfold dsp_write. intros H.
  apply bind_done in H. destruct H as ([] & w1 & Hw & H).
  apply dsp_write_wait_shape in Hw.
  destruct Hw as (waits & vr & -> & Hall & Hr & Hlen).
  unfold outb in H. rewrite emit_extend in H. inversion H; subst w'. clear H.
  exists waits, vr. split.
  - rewrite extend_extend, <- app_assoc. reflexivity.
  - split; [exact Hall|]. split; [exact Hr | exact Hlen].
Qed.

End AccessTheorems.

(** The example card answers both waits at once. *)
Lemma dsp_read_protocol_witness :
  exists waits vr,
    extend boot [Inb 0x22E 0xFF; Inb 0x22A 0xAA]
    = extend boot (map (Inb (SB16_POLL_PORT sb16_at_220)) waits ++
                   [Inb (SB16_POLL_PORT sb16_at_220) vr;
                    Inb (SB16_READ_PORT sb16_at_220) 0xAA]) /\
    Forall (fun x => Z.land x (BUF_RDY_VAL sb16_at_220) = 0) waits /\
    Z.land vr (BUF_RDY_VAL sb16_at_220) <> 0 /\
    (length waits < 5)%nat /\
    0 <= 0xAA < 256.
Proof.
  apply (dsp_read_protocol sb16_at_220 card_ready 5 boot).
  vm_compute. reflexivity.
Defined.

Lemma dsp_write_protocol_witness :
  exists waits vr,
    extend boot [Inb 0x22C 0; Outb 0x41 0x22C]
    = extend boot (map (Inb (SB16_WRITE_PORT sb16_at_220)) waits ++
                   [Inb (SB16_WRITE_PORT sb16_at_220) vr;
                    Outb (0x141 mod 256) (SB16_WRITE_PORT sb16_at_220)]) /\
    Forall (fun x => Z.land x (BUF_RDY_VAL sb16_at_220) <> 0) waits /\
    Z.land vr (BUF_RDY_VAL sb16_at_220) = 0 /\
    (length waits < 5)%nat.
Proof.
  apply (dsp_write_protocol sb16_at_220 card_ready 5 0x141 boot).
  vm_compute. reflexivity.
Defined.

(** ** Cards that do not answer *)

Lemma bind_hang {A B} (m : M A) (f : A -> M B) w :
  m w = Hang -> bind m f w = Hang.
Proof. unfold bind. intros ->. reflexivity. Qed.

Section HangTheorems.

Variable h : sb16_h.
Variable card : device.

Lemma dsp_read_hangs fuel w :
  never_available h card -> dsp_read h card fuel w = Hang.
Proof.
  intros Hn. unfold dsp_read. apply bind_hang.
  revert w. induction fuel as [|n IH]; intros w; [reflexivity|].
  cbn [dsp_read_wait]. rewrite (bind_step _ _ _ _ _ (inb_extend card _ w)).
  rewrite (Hn (trace w)). cbn [Z.eqb]. apply IH.
Qed.

Lemma sb16_reset_hangs fuel w :
  never_available h card -> sb16_reset h card fuel w = Hang.
Proof.
  intros Hn. rewrite sb16_reset_unfold. apply bind_hang.
  destruct fuel as [|n]; [reflexivity|].
  cbn [sb16_reset_poll]. apply bind_hang. apply dsp_read_hangs. exact Hn.
Qed.

(** X4: on a card whose poll port never shows a byte to read,
    [sb16_shutdown] does not return, whatever the iteration bound, and
    neither does [sb16_init] once it has found the card idle: the wait in
    [dsp_read] has no bound of its own. *)
Theorem no_return_without_poll_bit fuel w :
  never_available h card ->
  sb16_shutdown h card fuel w = Hang /\
  (in_use w = 0 -> forall info_block, sb16_init h card fuel info_block w = Hang).
Proof.
  intros Hn. split.
  - unfold sb16_shutdown. apply bind_hang. apply sb16_reset_hangs. exact Hn.
  - intros Hidle info_block.
    rewrite sb16_init_enter, get_in_use_step. cbn [in_use extend].
    rewrite Hidle. cbn [Z.eqb negb]. apply bind_hang.
    apply sb16_reset_hangs. exact Hn.
Qed.

Lemma dsp_write_hangs fuel command w :
  never_writable h card -> dsp_write h card fuel command w = Hang.
Proof.
  intros Hn. unfold dsp_write. apply bind_hang.
  revert w. induction fuel as [|n IH]; intros w; [reflexivity|].
  cbn [dsp_write_wait]. rewrite (bind_step _ _ _ _ _ (inb_extend card _ w)).
  destruct (Z.eqb_spec (Z.land (u8 (card (trace w) (SB16_WRITE_PORT h)))
                               (BUF_RDY_VAL h)) 0) as [E|E].
  - destruct (Hn (trace w) E).
  - apply IH.
Qed.

(** X5: on a card that never becomes ready for a command, [dsp_write]
    does not return, whatever the command, the state and the iteration
    bound; so [sb16_init] with an acceptable header, once its reset
    handshake has returned something else than -1, does not return
    either. *)
Theorem no_return_without_write_ready fuel :
  never_writable h card ->
  (forall command w, dsp_write h card fuel command w = Hang) /\
  (forall blk f w rs w1,
     in_use w = 0 ->
     sb16_reset h card fuel (extend w [EnableIrq (SB16_IRQ_LINE h)]) = Done rs w1 ->
     rs <> -1 ->
     parse h blk = Some f ->
     tag_ok h f -> f_format f = 1 -> f_nchannels f = 2 -> f_bpsample f = 16 ->
     sb16_init h card fuel (Some blk) w = Hang).
Proof.
  intros Hn. split; [intros command w; apply dsp_write_hangs; exact Hn|].
  intros blk f w rs w1 Hidle Hrs Hne Ep Ht Hf Hc Hb.
  rewrite (sb16_init_past_reset h card fuel (Some blk) w rs w1 Hidle Hrs Hne).
  rewrite Ep. unfold tag_ok in Ht. rewrite Ht, Hf, Hc, Hb, Z.eqb_refl.
  cbn [Z.eqb Pos.eqb negb orb NCHANNELS _16BITS].
  unfold start_playback.
  rewrite (bind_step _ _ _ _ _ (dma_init_run _ _ _ _ _)).
  apply bind_hang. unfold dsp_init. apply bind_hang.
  apply dsp_write_hangs. exact Hn.
Qed.

End HangTheorems.

Lemma no_return_without_poll_bit_witness :
  sb16_shutdown sb16_at_220 card_silent 5 boot = Hang /\
  (in_use boot = 0 ->
   forall info_block, sb16_init sb16_at_220 card_silent 5 info_block boot = Hang).
Proof.
  apply (no_return_without_poll_bit sb16_at_220 card_silent 5 boot).
  intros t. reflexivity.
Defined.

(** The card that acknowledges the reset and then stays busy. *)
Lemma no_return_without_write_ready_witness :
  dsp_write sb16_at_220 card_deaf 5 0x41 mid_session = Hang /\
  sb16_init sb16_at_220 card_deaf 5 (Some cd_header) idle_toggled = Hang.
Proof.
  assert (Hn : never_writable sb16_at_220 card_deaf)
    by (intros t; vm_compute; discriminate).
  destruct (no_return_without_write_ready sb16_at_220 card_deaf 5 Hn)
    as (Hw & Hi).
  split; [apply Hw|].
  apply (Hi cd_header
           {| f_tag := [x57; x41; x56; x45]; f_format := 1; f_nchannels := 2;
              f_bpsample := 16; f_sample_rate := 44100 |}
           idle_toggled 2
           (extend idle_toggled [EnableIrq 5; Outb 1 0x226; Outb 0 0x226;
                                 Inb 0x22E 0xFF; Inb 0x22A 0xAA])).
  - reflexivity.
  - vm_compute. reflexivity.
  - discriminate.
  - vm_compute. reflexivity.
  - vm_compute. reflexivity.
  - reflexivity.
  - reflexivity.
  - reflexivity.
Defined.

(** ** Sessions *)

Section SessionTheorems.

Variable h : sb16_h.
Variable card : device.
Variable fuel : nat.

(** X6: the value -1, which [sb16_init] takes for a failed reset, comes out
    of [sb16_reset] exactly when the ready byte did arrive, on the last
    poll the loop makes; an idle [sb16_init] then gives up with "SB16
    initialization failed". *)
Theorem reset_failure_is_late_ready w w1 :
  budget_ok h fuel ->
  (sb16_reset h card fuel (extend w [EnableIrq (SB16_IRQ_LINE h)]) = Done (-1) w1 <->
   first_ready h card fuel (S (Z.to_nat (WAITLOOP h)))
               (pulsed h (extend w [EnableIrq (SB16_IRQ_LINE h)])) w1) /\
  (in_use w = 0 ->
   first_ready h card fuel (S (Z.to_nat (WAITLOOP h)))
               (pulsed h (extend w [EnableIrq (SB16_IRQ_LINE h)])) w1 ->
   forall info_block,
     sb16_init h card fuel info_block w
     = Done (-1) (extend w1 [Printf MsgResetFailed])).
Proof.
  intros B.
  assert (Hback : first_ready h card fuel (S (Z.to_nat (WAITLOOP h)))
                    (pulsed h (extend w [EnableIrq (SB16_IRQ_LINE h)])) w1 ->
                  sb16_reset h card fuel (extend w [EnableIrq (SB16_IRQ_LINE h)])
                  = Done (-1) w1).
  { intros Hfr. destruct B as [Hw Hf].
    rewrite (sb16_reset_ready_at h card fuel
               (extend w [EnableIrq (SB16_IRQ_LINE h)])
               (S (Z.to_nat (WAITLOOP h))) w1 (conj Hw Hf) ltac:(lia) Hfr).
    f_equal. lia. }
  split; [split; [|exact Hback]|].
  - intros H. destruct (sb16_reset_inv h card fuel _ _ _ B H)
      as [(k & Hk & Hfr & Hj) | (_ & Hj)]; [|discriminate Hj].
    destruct B as [Hw Hf].
    assert (k = S (Z.to_nat (WAITLOOP h))) by lia. subst k. exact Hfr.
  - intros Hidle Hfr info_block. apply Hback in Hfr.
    rewrite sb16_init_enter, get_in_use_step. cbn [in_use extend].
    rewrite Hidle. cbn [Z.eqb negb]. rewrite (bind_step _ _ _ _ _ Hfr).
    reflexivity.
Qed.

Lemma interrupts_traffic n : forall w,
  exists acks w',
    interrupts h card n w = Done tt w' /\
    length acks = n /\
    trace w' = trace w ++ interrupt_events h acks /\
    in_use w' = in_use w.
Proof.
  induction n as [|n IH]; intros w.
  - exists [], w. cbn. rewrite app_nil_r. auto.
  - cbn [interrupts]. rewrite (bind_step _ _ _ _ _ (sb16_interrupt_run h card w)).
    match goal with |- context [interrupts h card n ?w1] =>
      destruct (IH w1) as (acks & w' & Hrun & Hlen & Htr & Hu) end.
    exists (u8 (card (trace w ++ [Cli]) (SB16_POLL_PORT_16 h)) :: acks), w'.
    split; [exact Hrun|]. split; [cbn; lia|]. split.
    + rewrite Htr. cbn [trace interrupt_events flat_map]. rewrite <- app_assoc.
      reflexivity.
    + rewrite Hu. reflexivity.
Qed.

(** X7: [n] interrupts always return; on the bus they leave [n] times the
    same four events, interrupts off, the acknowledge read, the
    end-of-interrupt, interrupts on, and nothing else; no port is written
    and [in_use] stays. *)
Theorem interrupts_leave_only_acknowledges n w :
  exists acks w',
    interrupts h card n w = Done tt w' /\
    length acks = n /\
    trace w' = trace w ++ interrupt_events h acks /\
    writes (interrupt_events h acks) = [] /\
    in_use w' = in_use w.
Proof.
  destruct (interrupts_traffic n w) as (acks & w' & Hrun & Hlen & Htr & Hu).
  exists acks, w'. split; [exact Hrun|]. split; [exact Hlen|].
  split; [exact Htr|]. split; [|exact Hu].
  clear. induction acks as [|a acks IH]; [reflexivity|]. cbn. exact IH.
Qed.

(** X8: after a successful [sb16_init] the card stays busy through any
    number of interrupts: every further [sb16_init] returns -1 with
    "Another process is using the SB16" and touches no port. *)
Theorem busy_until_shutdown info_block w r w1 n :
  sb16_init h card fuel info_block w = Done r w1 -> r <> -1 ->
  exists w2,
    interrupts h card n w1 = Done tt w2 /\
    forall info_block',
      sb16_init h card fuel info_block' w2
      = Done (-1) (extend w2 [EnableIrq (SB16_IRQ_LINE h); Printf MsgInUse]).
Proof.
  intros H Hr.
  destruct (sb16_init_success_writes h card fuel _ _ _ _ H Hr)
    as (_ & _ & evs & _ & _ & _ & _ & Hw1 & _).
  destruct (interrupts_traffic n w1) as (_ & w2 & Hrun & _ & _ & Hu).
  exists w2. split; [exact Hrun|]. intros info_block'.
  apply sb16_init_busy. rewrite Hu, Hw1. cbn. discriminate.
Qed.

(** X9: [sb16_shutdown] releases the card whatever state it was in: if it
    returns, a following [sb16_init] whose reset is acknowledged and whose
    header is acceptable is not turned away; it returns the buffer address
    and marks the card busy again. *)
Theorem shutdown_releases_card blk f w r w1 rs w2 :
  writes_complete h card fuel ->
  sb16_shutdown h card fuel w = Done r w1 ->
  sb16_reset h card fuel (extend w1 [EnableIrq (SB16_IRQ_LINE h)]) = Done rs w2 ->
  rs <> -1 ->
  parse h blk = Some f ->
  tag_ok h f -> f_format f = 1 -> f_nchannels f = 2 -> f_bpsample f = 16 ->
  exists w3,
    sb16_init h card fuel (Some blk) w1 = Done (sint32 (buffer h)) w3 /\
    in_use w3 = 1 /\ int_flag w3 = 1.
Proof.
  intros Hc Hs Hrs Hne Ep Ht Hf Hn Hb.
  assert (Hidle : in_use w1 = 0).
  { unfold sb16_shutdown in Hs. apply bind_done in Hs.
    destruct Hs as (r0 & w0 & _ & Hs).
    cbv [bind set_in_use set_int_flag ret] in Hs. inversion Hs; subst.
    reflexivity. }
  rewrite (sb16_init_past_reset h card fuel (Some blk) w1 rs w2 Hidle Hrs Hne).
  rewrite Ep. unfold tag_ok in Ht. rewrite Ht, Hf, Hn, Hb, Z.eqb_refl.
  cbn [Z.eqb Pos.eqb negb orb NCHANNELS _16BITS].
  destruct (start_playback_returns h card fuel (f_sample_rate f) w2 Hc)
    as (w3 & E).
  pose proof (start_playback_inv _ _ _ _ _ _ _ E) as (evs & _ & Hw3 & _).
  exists w3. split; [exact E|]. subst w3. split; reflexivity.
Qed.

End SessionTheorems.

(** The card that acknowledges on the fourth poll, [WAITLOOP] being 3. *)
Lemma reset_failure_is_late_ready_witness :
  sb16_init sb16_at_220 (card_late 4) 5 (Some cd_header) boot
  = Done (-1)
      (extend boot
         [EnableIrq 5; Outb 1 0x226; Outb 0 0x226;
          Inb 0x22E 0xFF; Inb 0x22A 0; Inb 0x22E 0xFF; Inb 0x22A 0;
          Inb 0x22E 0xFF; Inb 0x22A 0; Inb 0x22E 0xFF; Inb 0x22A 0xAA;
          Printf MsgResetFailed]).
Proof.
  assert (B : budget_ok sb16_at_220 5) by (unfold budget_ok; cbn; lia).
  destruct (reset_failure_is_late_ready sb16_at_220 (card_late 4) 5 boot
              (extend boot
                 [EnableIrq 5; Outb 1 0x226; Outb 0 0x226;
                  Inb 0x22E 0xFF; Inb 0x22A 0; Inb 0x22E 0xFF; Inb 0x22A 0;
                  Inb 0x22E 0xFF; Inb 0x22A 0; Inb 0x22E 0xFF; Inb 0x22A 0xAA])
              B) as (_ & H).
  apply H; [reflexivity|].
  unfold first_ready.
  cbn [WAITLOOP sb16_at_220 Z.to_nat Pos.to_nat Pos.iter_op Nat.add Nat.pred polls_fail].
  exists (extend boot
            [EnableIrq 5; Outb 1 0x226; Outb 0 0x226;
             Inb 0x22E 0xFF; Inb 0x22A 0; Inb 0x22E 0xFF; Inb 0x22A 0;
             Inb 0x22E 0xFF; Inb 0x22A 0]).
  split; [lia|]. split; [|vm_compute; reflexivity].
  exists 0, (extend boot [EnableIrq 5; Outb 1 0x226; Outb 0 0x226;
                          Inb 0x22E 0xFF; Inb 0x22A 0]).
  split; [vm_compute; reflexivity|]. split; [discriminate|].
  exists 0, (extend boot [EnableIrq 5; Outb 1 0x226; Outb 0 0x226;
                          Inb 0x22E 0xFF; Inb 0x22A 0; Inb 0x22E 0xFF; Inb 0x22A 0]).
  split; [vm_compute; reflexivity|]. split; [discriminate|].
  exists 0, (extend boot [EnableIrq 5; Outb 1 0x226; Outb 0 0x226;
                          Inb 0x22E 0xFF; Inb 0x22A 0; Inb 0x22E 0xFF; Inb 0x22A 0;
                          Inb 0x22E 0xFF; Inb 0x22A 0]).
  split; [vm_compute; reflexivity|]. split; [discriminate|].
  reflexivity.
Defined.

(** Two interrupts into the playback of the example, a second caller is
    turned away. *)
Lemma busy_until_shutdown_witness :
  exists w2,
    interrupts sb16_at_220 card_ready 2 cd_playing = Done tt w2 /\
    forall info_block',
      sb16_init sb16_at_220 card_ready 5 info_block' w2
      = Done (-1) (extend w2 [EnableIrq 5; Printf MsgInUse]).
Proof.
  apply (busy_until_shutdown sb16_at_220 card_ready 5 (Some cd_header) boot
           0x130000 cd_playing 2 cd_playing_run).
  discriminate.
Defined.

Lemma cd_stopped_run :
  sb16_shutdown sb16_at_220 card_ready 5 cd_playing = Done 0 cd_stopped.
Proof. vm_compute. reflexivity. Qed.

Lemma cd_reset_again_run :
  sb16_reset sb16_at_220 card_ready 5 (extend cd_stopped [EnableIrq 5])
  = Done 2 cd_reset_again.
Proof. vm_compute. reflexivity. Qed.

(** The example played, shut down and started again. *)
Lemma shutdown_releases_card_witness :
  exists w3,
    sb16_init sb16_at_220 card_ready 5 (Some cd_header) cd_stopped
    = Done (sint32 (buffer sb16_at_220)) w3 /\
    in_use w3 = 1 /\ int_flag w3 = 1.
Proof.
  apply (shutdown_releases_card sb16_at_220 card_ready 5 cd_header
           {| f_tag := [x57; x41; x56; x45]; f_format := 1; f_nchannels := 2;
              f_bpsample := 16; f_sample_rate := 44100 |}
           cd_playing 0 cd_stopped 2 cd_reset_again).
  - intros w. vm_compute. discriminate.
  - exact cd_stopped_run.
  - exact cd_reset_again_run.
  - discriminate.
  - vm_compute. reflexivity.
  - vm_compute. reflexivity.
  - reflexivity.
  - reflexivity.
  - reflexivity.
Defined.

(** ** What the header check looks at *)

Lemma parse_inv h blk f :
  parse h blk = Some f ->
  memcpy blk (WAV_MAGIC_LOC h) FOUR_B = Some (f_tag f) /\
  load16 blk (WAV_FORMAT_LOC h) = Some (f_format f) /\
  load16 blk (WAV_NCHANNELS_LOC h) = Some (f_nchannels f) /\
  load16 blk (BPSAMPLE_LOC h) = Some (f_bpsample f) /\
  load16 blk (SAMPLE_RATE_LOC h) = Some (f_sample_rate f).
Proof.
  unfold parse. intros Ep.
  destruct (memcpy blk (WAV_MAGIC_LOC h) FOUR_B) as [t|]; [|discriminate].
  destruct (load16 blk (WAV_FORMAT_LOC h)) as [fo|]; [|discriminate].
  destruct (load16 blk (WAV_NCHANNELS_LOC h)) as [nc|]; [|discriminate].
  destruct (load16 blk (BPSAMPLE_LOC h)) as [bp|]; [|discriminate].
  destruct (load16 blk (SAMPLE_RATE_LOC h)) as [sr|]; [|discriminate].
  inversion Ep; subst f. cbn. repeat split; reflexivity.
Qed.

(** X10: [sb16_init] sees nothing of the header but the tag, the format
    code, the channel count, the bit depth and the low 16 bits of the
    sample rate: two blocks that agree on these five fields give the same
    run, on every card and from every state. *)
Theorem sb16_init_reads_five_fields h card fuel blk blk' f w :
  parse h blk = Some f -> parse h blk' = Some f ->
  sb16_init h card fuel (Some blk) w = sb16_init h card fuel (Some blk') w.
Proof.
  intros Ep Ep'.
  destruct (parse_inv h blk f Ep) as (E1 & E2 & E3 & E4 & E5).
  destruct (parse_inv h blk' f Ep') as (E1' & E2' & E3' & E4' & E5').
  rewrite !sb16_init_enter.
  rewrite E1, E2, E3, E4, E5, E1', E2', E3', E4', E5'.
  reflexivity.
Qed.

(** The second header differs from [cd_header] in the RIFF size, the byte
    rate, the block alignment and the data size. *)
Lemma sb16_init_reads_five_fields_witness :
  sb16_init sb16_at_220 card_ready 5 (Some cd_header) boot
  = sb16_init sb16_at_220 card_ready 5
      (Some [x52; x49; x46; x46;  xff; xff; xff; xff;  x57; x41; x56; x45;
             x66; x6d; x74; x20;  x10; x00; x00; x00;  x01; x00;  x02; x00;
             x44; xac; x00; x00;  x00; x00; x00; x00;  x00; x00;  x10; x00;
             x64; x61; x74; x61;  x00; x00; x00; x00]) boot.
Proof.
  apply (sb16_init_reads_five_fields sb16_at_220 card_ready 5 _ _
           {| f_tag := [x57; x41; x56; x45]; f_format := 1; f_nchannels := 2;
              f_bpsample := 16; f_sample_rate := 44100 |}).
  - vm_compute. reflexivity.
  - vm_compute. reflexivity.
Defined.

Lemma byte_val_range b : 0 <= byte_val b < 256.
Proof.
  unfold byte_val. pose proof (Byte.to_N_bounded b). lia.
Qed.

Lemma four_bytes_nonzero c0 c1 c2 c3 m :
  0 <= c0 < 256 -> 0 <= c1 < 256 -> 0 <= c2 < 256 -> 0 <= c3 < 256 ->
  c0 + 256 * (c1 + 256 * (c2 + 256 * (c3 + 256 * 0))) = m ->
  no_zero_byte m ->
  c0 <> 0 /\ c1 <> 0 /\ c2 <> 0 /\ c3 <> 0.
Proof.
  unfold no_zero_byte. intros H0 H1 H2 H3 E (N0 & N1 & N2 & N3).
  assert (m mod 256 = c0) by (subst m; Z.div_mod_to_equations; lia).
  assert ((m / 256) mod 256 = c1) by (subst m; Z.div_mod_to_equations; lia).
  assert ((m / 65536) mod 256 = c2) by (subst m; Z.div_mod_to_equations; lia).
  assert ((m / 16777216) mod 256 = c3) by (subst m; Z.div_mod_to_equations; lia).
  lia.
Qed.

Lemma memcpy_length blk off n t :
  memcpy blk off n = Some t -> length t = n.
Proof.
  unfold memcpy. destruct (Nat.leb_spec (off + n) (length blk)) as [L|L];
    [|discriminate].
  intros E. inversion E; subst t.
  rewrite length_firstn, length_skipn. lia.
Qed.

Lemma tag_check_four_bytes m b0 b1 b2 b3 :
  no_zero_byte m ->
  load32 (strrev ([b0; b1; b2; b3] ++ [x00])) = m <->
  be_val [b0; b1; b2; b3] = m.
Proof.
  intros Hm.
  pose proof (byte_val_range b0). pose proof (byte_val_range b1).
  pose proof (byte_val_range b2). pose proof (byte_val_range b3).
  assert (Z0 : byte_val x00 = 0) by reflexivity.
  assert (Hbe : be_val [b0; b1; b2; b3] = m ->
                byte_val b0 <> 0 /\ byte_val b1 <> 0 /\
                byte_val b2 <> 0 /\ byte_val b3 <> 0).
  { intros E. unfold be_val in E. cbn [rev app le_val] in E.
    apply four_bytes_nonzero in E; try assumption. tauto. }
  assert (Hnz : forall b, byte_val b <> 0 -> Byte.eqb b x00 = false).
  { intros b Hb. destruct (Byte.eqb b x00) eqn:Eb; [|reflexivity].
    apply Byte.byte_dec_bl in Eb. subst b. contradiction. }
  split.
  - intros E.
    destruct (Byte.eqb b0 x00) eqn:E0.
    { apply Byte.byte_dec_bl in E0. subst b0.
      unfold strrev, load32 in E. cbn [app strlen] in E.
      change (Byte.eqb x00 x00) with true in E.
      cbn [firstn skipn rev app le_val] in E. apply four_bytes_nonzero in E; try assumption.
      rewrite Z0 in E. tauto. }
    destruct (Byte.eqb b1 x00) eqn:E1.
    { apply Byte.byte_dec_bl in E1. subst b1.
      unfold strrev, load32 in E. cbn [app strlen] in E. rewrite E0 in E.
      change (Byte.eqb x00 x00) with true in E.
      cbn [firstn skipn rev app le_val] in E. apply four_bytes_nonzero in E; try assumption.
      rewrite Z0 in E. tauto. }
    destruct (Byte.eqb b2 x00) eqn:E2.
    { apply Byte.byte_dec_bl in E2. subst b2.
      unfold strrev, load32 in E. cbn [app strlen] in E. rewrite E0, E1 in E.
      change (Byte.eqb x00 x00) with true in E.
      cbn [firstn skipn rev app le_val] in E. apply four_bytes_nonzero in E; try assumption.
      rewrite Z0 in E. tauto. }
    destruct (Byte.eqb b3 x00) eqn:E3.
    { apply Byte.byte_dec_bl in E3. subst b3.
      unfold strrev, load32 in E. cbn [app strlen] in E. rewrite E0, E1, E2 in E.
      change (Byte.eqb x00 x00) with true in E.
      cbn [firstn skipn rev app le_val] in E. apply four_bytes_nonzero in E; try assumption.
      rewrite Z0 in E. tauto. }
    rewrite <- E. symmetry. apply tag_compared_big_endian;
      intros ->; discriminate.
  - intros E. destruct (Hbe E) as (N0 & N1 & N2 & N3).
    rewrite <- E. apply tag_compared_big_endian; intros ->; contradiction.
Qed.

(** X11: if no byte of [WAV_MAGIC] is zero, the tag check of [sb16_init]
    accepts exactly the headers whose four tag bytes, read big-endian,
    are [WAV_MAGIC]; that [strrev] stops at a NUL byte makes no
    difference. *)
Theorem tag_check_is_big_endian h blk f :
  parse h blk = Some f ->
  no_zero_byte (WAV_MAGIC h) ->
  tag_ok h f <-> be_val (f_tag f) = WAV_MAGIC h.
Proof.
  intros Ep Hm. destruct (parse_inv h blk f Ep) as (E1 & _).
  apply memcpy_length in E1. unfold tag_ok.
  destruct (f_tag f) as [|b0 [|b1 [|b2 [|b3 [|b4 t]]]]]; try discriminate E1.
  apply tag_check_four_bytes. exact Hm.
Qed.

Lemma tag_check_is_big_endian_witness :
  tag_ok sb16_at_220
         {| f_tag := [x57; x41; x56; x45]; f_format := 1; f_nchannels := 2;
            f_bpsample := 16; f_sample_rate := 44100 |} <->
  be_val [x57; x41; x56; x45] = 0x57415645.
Proof.
  apply (tag_check_is_big_endian sb16_at_220 cd_header).
  - vm_compute. reflexivity.
  - unfold no_zero_byte. cbn. repeat split; discriminate.
Defined.

(** ** What the buffer placement loses *)

(** X12: offset and page always fit their registers, and they do not see
    bit 0 of the address nor anything from bit 24 up: an even address, the
    odd address after it and the address 16 MiB above it get the same
    offset and the same page. *)
Theorem buffer_placement_aliases A :
  0 <= A -> A + 2 ^ 24 < 2 ^ 32 -> A mod 2 = 0 ->
  0 <= buf_offset A < 65536 /\
  0 <= buf_page A < 256 /\
  buf_offset (A + 1) = buf_offset A /\ buf_page (A + 1) = buf_page A /\
  buf_offset (A + 2 ^ 24) = buf_offset A /\ buf_page (A + 2 ^ 24) = buf_page A.
Proof.
  change (2 ^ 24) with 16777216. change (2 ^ 32) with 4294967296.
  intros H0 H1 He.
  unfold buf_offset, buf_page, u8, u16, u32, TWOTO16, _16BITS.
  change (2 ^ 8) with 256. change (2 ^ 16) with 65536.
  change (2 ^ 32) with 4294967296.
  rewrite !(Z.mod_small _ 4294967296) by lia.
  rewrite !Z.shiftr_div_pow2 by lia.
  change (2 ^ 1) with 2. change (2 ^ 16) with 65536.
  rewrite !Z.mod_mod by lia.
  repeat split; try (Z.div_mod_to_equations; lia).
Qed.

Lemma buffer_placement_aliases_witness :
  0 <= buf_offset 0x130000 < 65536 /\
  0 <= buf_page 0x130000 < 256 /\
  buf_offset (0x130000 + 1) = buf_offset 0x130000 /\
  buf_page (0x130000 + 1) = buf_page 0x130000 /\
  buf_offset (0x130000 + 2 ^ 24) = buf_offset 0x130000 /\
  buf_page (0x130000 + 2 ^ 24) = buf_page 0x130000.
Proof.
  apply (buffer_placement_aliases 0x130000).
  - lia.
  - cbn. lia.
  - reflexivity.
Defined.

(** ** The status the consumer reads *)

(** X13: the flag [sb16_copy_status] returns is 0 or 1 at boot and stays 0
    or 1 through every return of [sb16_init], [sb16_shutdown] and
    [sb16_interrupt]; [sb16_copy_status] itself returns the flag and
    changes nothing. *)
Theorem status_is_binary h card fuel w :
  int_flag w = 0 \/ int_flag w = 1 ->
  (forall info_block r w',
     sb16_init h card fuel info_block w = Done r w' ->
     int_flag w' = 0 \/ int_flag w' = 1) /\
  (forall r w',
     sb16_shutdown h card fuel w = Done r w' -> int_flag w' = 1) /\
  (forall w',
     sb16_interrupt h card w = Done tt w' ->
     int_flag w' = 1 - int_flag w) /\
  sb16_copy_status w = Done (int_flag w) w.
Proof.
  intros Hf. split; [|split; [|split; [|reflexivity]]].
  - intros info_block r w' H. apply sb16_init_inv in H.
    destruct H as [(_ & evs & -> & _) | (blk & f & w1 & e1 & _ & _ & _ & _ & _ & H)].
    + exact Hf.
    + apply start_playback_inv in H. destruct H as (evs & _ & -> & _).
      right. reflexivity.
  - intros r w' H. unfold sb16_shutdown in H. apply bind_done in H.
    destruct H as (r0 & w0 & _ & H).
    cbv [bind set_in_use set_int_flag ret] in H. inversion H; subst.
    reflexivity.
  - intros w' H. rewrite sb16_interrupt_run in H. inversion H; subst w'.
    cbn [int_flag]. destruct Hf as [-> | ->]; reflexivity.
Qed.

(** The flag after the successful run of the example. *)
Lemma status_is_binary_witness :
  int_flag cd_playing = 0 \/ int_flag cd_playing = 1.
Proof.
  assert (H : int_flag boot = 0 \/ int_flag boot = 1) by (right; reflexivity).
  destruct (status_is_binary sb16_at_220 card_ready 5 boot H)
    as (Hinit & _).
  exact (Hinit (Some cd_header) 0x130000 cd_playing cd_playing_run).
Defined.

(** ** The refill loop of the consumer *)

Section ConsumerFacts.

Variable k : kernel.
Variable fd : Z.
Variable b0 b1 : Z.

Lemma buffer_reads_app c1 c2 :
  buffer_reads (c1 ++ c2) = buffer_reads c1 ++ buffer_reads c2.
Proof.
  induction c1 as [|c c1 IH]; [reflexivity|].
  destruct c as [| | | ? [|a] ? ? | | |]; cbn; rewrite IH; reflexivity.
Qed.

Lemma statuses_app c1 c2 : statuses (c1 ++ c2) = statuses c1 ++ statuses c2.
Proof.
  induction c1 as [|c c1 IH]; [reflexivity|].
  destruct c; cbn; rewrite IH; reflexivity.
Qed.

Lemma buf_val_at_two temp addr :
  buf_val_at [b0; b1] temp = Some addr ->
  (temp = 0 /\ addr = b0) \/ (temp = 1 /\ addr = b1).
Proof.
  unfold buf_val_at, BUF_DIM.
  destruct (Z.leb_spec 0 temp) as [L|L]; [|discriminate].
  destruct (Z.ltb_spec temp 2) as [U|U]; [|discriminate].
  cbn [andb]. intros H.
  assert (E : temp = 0 \/ temp = 1) by lia.
  destruct E as [-> | ->]; cbn in H; inversion H; auto.
Qed.

Lemma buf_val_at_none temp :
  buf_val_at [b0; b1] temp = None -> temp < 0 \/ 1 < temp.
Proof.
  unfold buf_val_at, BUF_DIM.
  destruct (Z.leb_spec 0 temp) as [L|L]; [|lia].
  destruct (Z.ltb_spec temp 2) as [U|U]; [|lia].
  cbn [andb]. intros H.
  assert (E : temp = 0 \/ temp = 1) by lia.
  destruct E as [-> | ->]; cbn in H; discriminate.
Qed.

(** Everything the loop does, in one invariant: the calls it adds, where
    its reads go, how often it reads, and how it can end. *)
Lemma refill_loop_shape n : forall prev x y hist,
  (prev = 0 /\ x = b1 /\ y = b0) \/ (prev = 1 /\ x = b0 /\ y = b1) ->
  exists suffix m,
    calls (refill_loop k fd [b0; b1] n prev hist) = hist ++ suffix /\
    buffer_reads suffix = alternate x y m /\
    (forall code,
        ending_of (refill_loop k fd [b0; b1] n prev hist) = Exit code ->
        code = 0 /\ m = changes prev (statuses suffix) /\
        exists pre a ret,
          suffix = pre ++ [Read fd (ToAddress a) BUF_SIZE 0; AudioShutdown ret] /\
          existsb is_shutdown pre = false) /\
    (ending_of (refill_loop k fd [b0; b1] n prev hist) = Spinning ->
        m = changes prev (statuses suffix) /\
        existsb is_shutdown suffix = false /\
        length (statuses suffix) = n) /\
    (ending_of (refill_loop k fd [b0; b1] n prev hist) = OutOfBounds ->
        S m = changes prev (statuses suffix) /\
        existsb is_shutdown suffix = false /\
        exists pre s, suffix = pre ++ [AudioCstatus s] /\ (s < 0 \/ 1 < s)).
Proof.
  induction n as [|n IH]; intros prev x y hist Hp.
  - exists [], O. cbn. rewrite app_nil_r.
    split; [reflexivity|]. split; [reflexivity|].
    split; [intros code H; discriminate|].
    split; [intros _; auto | intros H; discriminate].
  - cbn [refill_loop]. cbv zeta.
    set (temp := sys k AskAudioCstatus hist).
    destruct (Z.eqb_spec prev temp) as [E|E]; cbn [negb].
    + (* the status has not changed *)
      destruct (IH prev x y (hist ++ [AudioCstatus temp]) Hp)
        as (suffix & m & Hc & Hb & Hx & Hs & Ho).
      exists (AudioCstatus temp :: suffix), m.
      assert (Hch : changes prev (statuses (AudioCstatus temp :: suffix))
                    = changes prev (statuses suffix)).
      { cbn [statuses changes]. rewrite <- E, Z.eqb_refl. reflexivity. }
      split; [rewrite Hc, <- app_assoc; reflexivity|].
      split; [exact Hb|]. rewrite Hch.
      split; [|split].
      * intros code H. destruct (Hx code H) as (C & M & pre & a & ret & Hsuf & Hpre).
        split; [exact C|]. split; [exact M|].
        exists (AudioCstatus temp :: pre), a, ret. subst suffix.
        split; [reflexivity | exact Hpre].
      * intros H. destruct (Hs H) as (M & Hno & Hlen).
        split; [exact M|]. split; [exact Hno|]. cbn [statuses length]. lia.
      * intros H. destruct (Ho H) as (M & Hno & pre & s & Hsuf & Hout).
        split; [exact M|]. split; [exact Hno|].
        exists (AudioCstatus temp :: pre), s. subst suffix.
        split; [reflexivity | exact Hout].
    + (* the status has changed *)
      assert (Hch1 : forall l, changes prev (temp :: l) = S (changes temp l)).
      { intros l. cbn [changes].
        destruct (Z.eqb_spec temp prev) as [E'|E']; [congruence | reflexivity]. }
      destruct (buf_val_at [b0; b1] temp) as [addr|] eqn:Eb.
      * apply buf_val_at_two in Eb.
        assert (Hx : addr = x /\
                     ((temp = 0 /\ y = b1 /\ x = b0) \/ (temp = 1 /\ y = b0 /\ x = b1))).
        { destruct Hp as [(P & X & Y) | (P & X & Y)];
            destruct Eb as [(T & A) | (T & A)]; subst; try congruence; auto. }
        destruct Hx as (-> & Hp'). clear Eb.
        set (hist1 := hist ++ [AudioCstatus temp]).
        set (got := sys k (AskRead fd (ToAddress x) BUF_SIZE) hist1).
        destruct (Z.eqb_spec got 0) as [G|G].
        -- exists [AudioCstatus temp; Read fd (ToAddress x) BUF_SIZE got;
                   AudioShutdown (sys k AskAudioShutdown
                     (hist1 ++ [Read fd (ToAddress x) BUF_SIZE got]))], 1%nat.
           cbn [calls ending_of].
           split; [unfold hist1; rewrite <- !app_assoc; reflexivity|].
           split; [reflexivity|].
           split; [|split; intros H; discriminate].
           intros code H. inversion H; subst code.
           split; [reflexivity|]. split.
           ++ cbn [statuses]. rewrite Hch1. reflexivity.
           ++ exists [AudioCstatus temp], x, (sys k AskAudioShutdown
                     (hist1 ++ [Read fd (ToAddress x) BUF_SIZE got])).
              rewrite G. split; reflexivity.
        -- destruct (IH temp y x (hist1 ++ [Read fd (ToAddress x) BUF_SIZE got]) Hp')
             as (suffix & m & Hc & Hb & Hex & Hs & Ho).
           exists (AudioCstatus temp :: Read fd (ToAddress x) BUF_SIZE got :: suffix),
                  (S m).
           assert (Hch : changes prev
                           (statuses (AudioCstatus temp ::
                                      Read fd (ToAddress x) BUF_SIZE got :: suffix))
                         = S (changes temp (statuses suffix))).
           { cbn [statuses]. apply Hch1. }
           split; [rewrite Hc; unfold hist1; rewrite <- !app_assoc; reflexivity|].
           split; [cbn [buffer_reads alternate]; rewrite Hb; reflexivity|].
           rewrite Hch. split; [|split].
           ++ intros code H.
              destruct (Hex code H) as (C & M & pre & a & ret & Hsuf & Hpre).
              split; [exact C|]. split; [congruence|].
              exists (AudioCstatus temp :: Read fd (ToAddress x) BUF_SIZE got :: pre),
                     a, ret.
              subst suffix. split; [reflexivity | exact Hpre].
           ++ intros H. destruct (Hs H) as (M & Hno & Hlen).
              split; [congruence|]. split; [exact Hno|].
              cbn [statuses length]. lia.
           ++ intros H. destruct (Ho H) as (M & Hno & pre & s & Hsuf & Hout).
              split; [congruence|]. split; [exact Hno|].
              exists (AudioCstatus temp :: Read fd (ToAddress x) BUF_SIZE got :: pre), s.
              subst suffix. split; [reflexivity | exact Hout].
      * apply buf_val_at_none in Eb.
        exists [AudioCstatus temp], O. cbn [calls ending_of].
        split; [reflexivity|]. split; [reflexivity|].
        split; [intros code H; discriminate|].
        split; [intros H; discriminate|].
        intros _. split; [cbn [statuses]; rewrite Hch1; reflexivity|].
        split; [reflexivity|]. exists [], temp. split; [reflexivity | exact Eb].
Qed.

End ConsumerFacts.

(** ** The runs of [main] *)

Section MainTheorems.

Variable k : kernel.
Variable fuel : nat.

(** The four ways through [main] up to its loop. *)
Lemma main_cases :
  (args_answer k <> 0 /\
   main k fuel = {| ending_of := Exit 3;
                    calls := [Getargs COPY_LEN (args_answer k);
                              Fdputs 1 MsgNoArguments] |}) \/
  (args_answer k = 0 /\ open_answer k = -1 /\
   main k fuel = {| ending_of := Exit 2;
                    calls := [Getargs COPY_LEN (args_answer k);
                              Open (open_answer k);
                              Fdputs 1 MsgFileNotFound] |}) \/
  (args_answer k = 0 /\ open_answer k <> -1 /\ init_answer k = -1 /\
   main k fuel = {| ending_of := Exit 0;
                    calls := [Getargs COPY_LEN (args_answer k);
                              Open (open_answer k);
                              Read (open_answer k) ToInfoBlock IBLOCK_SIZE
                                (sys k (AskRead (open_answer k) ToInfoBlock IBLOCK_SIZE)
                                     [Getargs COPY_LEN (args_answer k);
                                      Open (open_answer k)]);
                              AudioInit (init_answer k)] |}) \/
  (args_answer k = 0 /\ open_answer k <> -1 /\ init_answer k <> -1 /\
   main k fuel = refill_loop k (open_answer k)
                   [base_address k; second_half k] fuel 0 (setup_calls k)).
Proof.
  unfold main. cbv zeta. cbn [app nth].
  fold (args_answer k).
  destruct (Z.eqb_spec 0 (args_answer k)) as [Ea|Ea]; cbn [negb].
  2:{ left. split; [congruence | reflexivity]. }
  right. fold (open_answer k).
  destruct (Z.eqb_spec (-1) (open_answer k)) as [Eo|Eo].
  { left. split; [congruence|]. split; [congruence | reflexivity]. }
  right. fold (init_answer k).
  destruct (Z.eqb_spec (init_answer k) (-1)) as [Ei|Ei].
  { left. split; [congruence|]. split; [congruence|].
    split; [exact Ei | reflexivity]. }
  right. split; [congruence|]. split; [congruence|].
  split; [exact Ei | reflexivity].
Qed.

Lemma setup_calls_reads :
  buffer_reads (setup_calls k) = [base_address k; second_half k] /\
  statuses (setup_calls k) = [] /\
  existsb is_shutdown (setup_calls k) = false.
Proof. repeat split; reflexivity. Qed.

(** X14: [main] returns 3 exactly when the arguments cannot be read, 2
    exactly when they can and the file cannot be opened; when both are
    there and the driver refuses, it returns 0; and every other return is
    a return of 0 with arguments and file at hand.  It never returns 1,
    the value after its loop. *)
Theorem main_exit_codes :
  (ending_of (main k fuel) = Exit 3 <-> args_answer k <> 0) /\
  (ending_of (main k fuel) = Exit 2 <->
   args_answer k = 0 /\ open_answer k = -1) /\
  (args_answer k = 0 -> open_answer k <> -1 -> init_answer k = -1 ->
   ending_of (main k fuel) = Exit 0) /\
  (forall code,
     ending_of (main k fuel) = Exit code ->
     code = 3 \/ code = 2 \/
     (code = 0 /\ args_answer k = 0 /\ open_answer k <> -1)).
Proof.
  assert (Hloop : forall code,
            ending_of (refill_loop k (open_answer k)
                         [base_address k; second_half k] fuel 0 (setup_calls k))
            = Exit code -> code = 0).
  { intros code H.
    destruct (refill_loop_shape k (open_answer k) (base_address k) (second_half k)
                fuel 0 (second_half k) (base_address k) (setup_calls k))
      as (suffix & m & _ & _ & Hx & _); [left; auto|].
    destruct (Hx code H) as (C & _). exact C. }
  destruct main_cases as [(A & E) | [(A & O & E) | [(A & O & I & E) | (A & O & I & E)]]];
    rewrite E; cbn [ending_of].
  - split; [split; [intros _; exact A | reflexivity]|].
    split; [split; [intros H; discriminate H | intros (A' & _); contradiction]|].
    split; [intros; contradiction|].
    intros code H. inversion H. auto.
  - split; [split; [intros H; discriminate H | intros; contradiction]|].
    split; [split; [auto | reflexivity]|].
    split; [intros; contradiction|].
    intros code H. inversion H. auto.
  - split; [split; [intros H; discriminate H | intros; contradiction]|].
    split; [split; [intros H; discriminate H | intros (_ & O'); contradiction]|].
    split; [reflexivity|].
    intros code H. inversion H. auto.
  - split; [split; [intros H; apply Hloop in H; discriminate H
                   | intros; contradiction]|].
    split; [split; [intros H; apply Hloop in H; discriminate H
                   | intros (_ & O'); contradiction]|].
    split; [intros; contradiction|].
    intros code H. apply Hloop in H. auto.
Qed.

(** X15: [ece391_audio_shutdown] is called at most once, as the last call
    and right after a refill read that returned 0, and then [main] returns
    0; it is called whenever [main] returns after the driver was
    initialised, and never when arguments, file or initialisation
    failed. *)
Theorem shutdown_ends_playback :
  (existsb is_shutdown (calls (main k fuel)) = false \/
   exists pre fd a ret,
     calls (main k fuel)
     = pre ++ [Read fd (ToAddress a) BUF_SIZE 0; AudioShutdown ret] /\
     existsb is_shutdown pre = false /\
     ending_of (main k fuel) = Exit 0) /\
  (forall code,
     ending_of (main k fuel) = Exit code ->
     args_answer k = 0 -> open_answer k <> -1 -> init_answer k <> -1 ->
     existsb is_shutdown (calls (main k fuel)) = true) /\
  (args_answer k <> 0 \/ open_answer k = -1 \/ init_answer k = -1 ->
   existsb is_shutdown (calls (main k fuel)) = false).
Proof.
  destruct main_cases as [(A & E) | [(A & O & E) | [(A & O & I & E) | (A & O & I & E)]]];
    rewrite E.
  - split; [left; reflexivity|]. split; [intros; contradiction | reflexivity].
  - split; [left; reflexivity|]. split; [intros; contradiction | reflexivity].
  - split; [left; reflexivity|]. split; [intros; contradiction | reflexivity].
  - destruct (refill_loop_shape k (open_answer k) (base_address k) (second_half k)
                fuel 0 (second_half k) (base_address k) (setup_calls k))
      as (suffix & m & Hc & _ & Hx & Hs & Ho); [left; auto|].
    rewrite Hc.
    split; [|split].
    + destruct (ending_of (refill_loop k (open_answer k)
                  [base_address k; second_half k] fuel 0 (setup_calls k)))
        as [code| |] eqn:En.
      * destruct (Hx code eq_refl) as (C & _ & pre & a & ret & Hsuf & Hpre).
        right. exists (setup_calls k ++ pre), (open_answer k), a, ret.
        subst suffix code. rewrite <- app_assoc.
        split; [reflexivity|]. split; [|reflexivity].
        rewrite existsb_app, Hpre. reflexivity.
      * destruct (Hs eq_refl) as (_ & Hno & _).
        left. rewrite existsb_app, Hno. reflexivity.
      * destruct (Ho eq_refl) as (_ & Hno & _).
        left. rewrite existsb_app, Hno. reflexivity.
    + intros code H _ _ _.
      destruct (Hx code H) as (_ & _ & pre & a & ret & Hsuf & _).
      subst suffix. rewrite !existsb_app. cbn. rewrite !orb_true_r. reflexivity.
    + intros [N | [N | N]]; contradiction.
Qed.

(** X16: if arguments, file or initialisation fail, [main] reads nothing
    into the buffer.  Otherwise it fills the half at the returned address,
    then the half [BUF_SIZE] above it, and every refill after that goes to
    one of the two in turn, the upper half first: so the upper half is
    written twice in a row at the start. *)
Theorem refills_alternate :
  (args_answer k <> 0 \/ open_answer k = -1 \/ init_answer k = -1 ->
   buffer_reads (calls (main k fuel)) = []) /\
  (args_answer k = 0 -> open_answer k <> -1 -> init_answer k <> -1 ->
   exists m,
     buffer_reads (calls (main k fuel))
     = [base_address k; second_half k] ++
       alternate (second_half k) (base_address k) m).
Proof.
  destruct main_cases as [(A & E) | [(A & O & E) | [(A & O & I & E) | (A & O & I & E)]]];
    rewrite E.
  - split; [reflexivity | intros; contradiction].
  - split; [reflexivity | intros; contradiction].
  - split; [reflexivity | intros; contradiction].
  - split; [intros [N | [N | N]]; contradiction|]. intros _ _ _.
    destruct (refill_loop_shape k (open_answer k) (base_address k) (second_half k)
                fuel 0 (second_half k) (base_address k) (setup_calls k))
      as (suffix & m & Hc & Hb & _); [left; auto|].
    exists m. rewrite Hc, buffer_reads_app, Hb. reflexivity.
Qed.

(** X17: once the driver is initialised, [main] refills exactly when the
    status it reads differs from the one it acted on last, 0 at the start:
    unless the run ends out of bounds, the buffer has been read into twice
    plus once per change in the sequence of status answers. *)
Theorem refills_follow_status_changes :
  args_answer k = 0 -> open_answer k <> -1 -> init_answer k <> -1 ->
  ending_of (main k fuel) <> OutOfBounds ->
  length (buffer_reads (calls (main k fuel)))
  = (2 + changes 0 (statuses (calls (main k fuel))))%nat.
Proof.
  intros A O I.
  destruct main_cases as [(A' & E) | [(_ & O' & E) | [(_ & _ & I' & E) | (_ & _ & _ & E)]]];
    try contradiction.
  rewrite E.
  destruct (refill_loop_shape k (open_answer k) (base_address k) (second_half k)
              fuel 0 (second_half k) (base_address k) (setup_calls k))
    as (suffix & m & Hc & Hb & Hx & Hs & Ho); [left; auto|].
  rewrite Hc, buffer_reads_app, statuses_app, Hb.
  intros Hend.
  destruct setup_calls_reads as (Hr & Hst & _). rewrite Hr, Hst.
  cbn [app length].
  assert (Hlen : forall x y n, length (alternate x y n) = n).
  { intros x y n. revert x y. induction n as [|n IHn]; intros x y; cbn; auto. }
  rewrite Hlen.
  destruct (ending_of (refill_loop k (open_answer k)
              [base_address k; second_half k] fuel 0 (setup_calls k)))
    as [code| |] eqn:En.
  - destruct (Hx code eq_refl) as (_ & M & _). lia.
  - destruct (Hs eq_refl) as (M & _). lia.
  - contradiction.
Qed.

Lemma refill_loop_statuses b0 b1 n : forall prev hist,
  prev = 0 \/ prev = 1 ->
  exists suffix,
    calls (refill_loop k (open_answer k) [b0; b1] n prev hist) = hist ++ suffix /\
    (ending_of (refill_loop k (open_answer k) [b0; b1] n prev hist) <> OutOfBounds ->
     Forall (fun s => s = 0 \/ s = 1) (statuses suffix)).
Proof.
  induction n as [|n IH]; intros prev hist Hp.
  - exists []. cbn. rewrite app_nil_r. split; [reflexivity | constructor].
  - cbn [refill_loop]. cbv zeta.
    set (temp := sys k AskAudioCstatus hist).
    destruct (Z.eqb_spec prev temp) as [E|E]; cbn [negb].
    + destruct (IH prev (hist ++ [AudioCstatus temp]) Hp) as (suffix & Hc & Hs).
      exists (AudioCstatus temp :: suffix).
      split; [rewrite Hc, <- app_assoc; reflexivity|].
      intros Hend. cbn [statuses]. constructor; [rewrite <- E; exact Hp | auto].
    + destruct (buf_val_at [b0; b1] temp) as [addr|] eqn:Eb.
      * assert (Ht : temp = 0 \/ temp = 1).
        { apply buf_val_at_two in Eb. destruct Eb as [(T & _) | (T & _)]; auto. }
        set (hist1 := hist ++ [AudioCstatus temp]).
        set (got := sys k (AskRead (open_answer k) (ToAddress addr) BUF_SIZE) hist1).
        destruct (got =? 0).
        -- eexists [AudioCstatus temp; Read _ (ToAddress addr) BUF_SIZE got;
                    AudioShutdown _].
           cbn [calls ending_of].
           split; [unfold hist1; rewrite <- !app_assoc; reflexivity|].
           intros _. cbn [statuses]. constructor; [exact Ht | constructor].
        -- destruct (IH temp (hist1 ++ [Read (open_answer k) (ToAddress addr)
                                             BUF_SIZE got]) Ht)
             as (suffix & Hc & Hs).
           exists (AudioCstatus temp ::
                   Read (open_answer k) (ToAddress addr) BUF_SIZE got :: suffix).
           split; [rewrite Hc; unfold hist1; rewrite <- !app_assoc; reflexivity|].
           intros Hend. cbn [statuses]. constructor; [exact Ht | auto].
      * exists [AudioCstatus temp]. cbn [calls ending_of].
        split; [reflexivity|]. intros N. contradiction.
Qed.

(** X18: [main] indexes [buf_val] with the status as it comes.  A run
    reaches an index outside the two-element array exactly when one of the
    status answers it has received is below 0 or above 1; what the program
    does from there on is undefined, and the run is followed no
    further. *)
Theorem out_of_bounds_iff_stray_status :
  ending_of (main k fuel) = OutOfBounds <->
  exists s, In s (statuses (calls (main k fuel))) /\ (s < 0 \/ 1 < s).
Proof.
  destruct main_cases as [(A & E) | [(A & O & E) | [(A & O & I & E) | (A & O & I & E)]]];
    rewrite E; cbn [ending_of calls statuses].
  - split; [intros H; discriminate H | intros (s & [] & _)].
  - split; [intros H; discriminate H | intros (s & [] & _)].
  - split; [intros H; discriminate H | intros (s & [] & _)].
  - split.
    + intros H.
      destruct (refill_loop_shape k (open_answer k) (base_address k) (second_half k)
                  fuel 0 (second_half k) (base_address k) (setup_calls k))
        as (suffix & m & Hc & _ & _ & _ & Ho); [left; auto|].
      destruct (Ho H) as (_ & _ & pre & s & Hsuf & Hout).
      exists s. split; [|exact Hout].
      rewrite Hc, Hsuf, !statuses_app. apply in_or_app. right.
      apply in_or_app. right. cbn. auto.
    + intros (s & Hin & Hout).
      destruct (refill_loop_statuses (base_address k) (second_half k) fuel 0
                  (setup_calls k)) as (suffix & Hc & Hs); [left; reflexivity|].
      destruct (ending_of (refill_loop k (open_answer k)
                  [base_address k; second_half k] fuel 0 (setup_calls k)))
        as [code| |] eqn:En; [exfalso | exfalso | reflexivity].
      * rewrite Hc, statuses_app in Hin.
        destruct setup_calls_reads as (_ & Hst & _). rewrite Hst in Hin.
        cbn [app] in Hin.
        assert (Hall := Hs ltac:(discriminate)).
        rewrite Forall_forall in Hall. specialize (Hall s Hin). lia.
      * rewrite Hc, statuses_app in Hin.
        destruct setup_calls_reads as (_ & Hst & _). rewrite Hst in Hin.
        cbn [app] in Hin.
        assert (Hall := Hs ltac:(discriminate)).
        rewrite Forall_forall in Hall. specialize (Hall s Hin). lia.
Qed.

Lemma refill_loop_quiet fd buf_val n : forall hist,
  (forall hist', sys k AskAudioCstatus hist' = 0) ->
  refill_loop k fd buf_val n 0 hist
  = {| ending_of := Spinning; calls := hist ++ repeat (AudioCstatus 0) n |}.
Proof.
  induction n as [|n IH]; intros hist Hq.
  - cbn. rewrite app_nil_r. reflexivity.
  - cbn [refill_loop]. cbv zeta. rewrite Hq. cbn [Z.eqb negb].
    rewrite IH by exact Hq. cbn [repeat]. rewrite <- app_assoc. reflexivity.
Qed.

(** X19: [main] leaves its loop only through a refill: while the status
    stays 0, it keeps asking for it and does nothing else, however often
    it goes round, also when all its reads so far returned 0. *)
Theorem main_spins_while_status_is_zero :
  args_answer k = 0 -> open_answer k <> -1 -> init_answer k <> -1 ->
  (forall hist, sys k AskAudioCstatus hist = 0) ->
  main k fuel
  = {| ending_of := Spinning;
       calls := setup_calls k ++ repeat (AudioCstatus 0) fuel |}.
Proof.
  intros A O I Hq.
  destruct main_cases as [(A' & E) | [(_ & O' & E) | [(_ & _ & I' & E) | (_ & _ & _ & E)]]];
    try contradiction.
  rewrite E. apply refill_loop_quiet. exact Hq.
Qed.

End MainTheorems.

(** The example kernel: three refills, the last one at the end of the
    file, so the run ends with 0 and neither with 3 nor with 2. *)
Lemma main_exit_codes_witness :
  ending_of (main demo_kernel 10) = Exit 0 /\
  (ending_of (main demo_kernel 10) = Exit 3 <-> args_answer demo_kernel <> 0) /\
  (0 = 3 \/ 0 = 2 \/
   (0 = 0 /\ args_answer demo_kernel = 0 /\ open_answer demo_kernel <> -1)).
Proof.
  assert (E : ending_of (main demo_kernel 10) = Exit 0)
    by (vm_compute; reflexivity).
  destruct (main_exit_codes demo_kernel 10) as (H3 & _ & _ & Hc).
  split; [exact E|]. split; [exact H3|]. exact (Hc 0 E).
Defined.

Lemma shutdown_ends_playback_witness :
  existsb is_shutdown (calls (main demo_kernel 10)) = true.
Proof.
  destruct (shutdown_ends_playback demo_kernel 10) as (_ & H & _).
  apply (H 0).
  - vm_compute. reflexivity.
  - vm_compute. reflexivity.
  - vm_compute. discriminate.
  - vm_compute. discriminate.
Defined.

Lemma refills_alternate_witness :
  exists m,
    buffer_reads (calls (main demo_kernel 10))
    = [base_address demo_kernel; second_half demo_kernel] ++
      alternate (second_half demo_kernel) (base_address demo_kernel) m.
Proof.
  destruct (refills_alternate demo_kernel 10) as (_ & H).
  apply H.
  - vm_compute. reflexivity.
  - vm_compute. discriminate.
  - vm_compute. discriminate.
Defined.

Lemma refills_follow_status_changes_witness :
  length (buffer_reads (calls (main demo_kernel 10)))
  = (2 + changes 0 (statuses (calls (main demo_kernel 10))))%nat.
Proof.
  apply (refills_follow_status_changes demo_kernel 10).
  - vm_compute. reflexivity.
  - vm_compute. discriminate.
  - vm_compute. discriminate.
  - vm_compute. discriminate.
Defined.

(** A status answer of 2 takes the run out of [buf_val]. *)
Lemma out_of_bounds_iff_stray_status_witness :
  ending_of (main stray_kernel 4) = OutOfBounds.
Proof.
  apply (out_of_bounds_iff_stray_status stray_kernel 4).
  exists 2. split; [vm_compute; auto | lia].
Defined.

Lemma main_spins_while_status_is_zero_witness :
  main quiet_kernel 3
  = {| ending_of := Spinning;
       calls := setup_calls quiet_kernel ++ repeat (AudioCstatus 0) 3 |}.
Proof.
  apply (main_spins_while_status_is_zero quiet_kernel 3).
  - vm_compute. reflexivity.
  - vm_compute. discriminate.
  - vm_compute. discriminate.
  - intros hist. reflexivity.
Defined.

(** ** The interrupt line and the returned address *)

Lemma grows_ret {A} (a : A) : grows (ret a).
Proof. intros w a' w' H. inversion H; subst. exists []. symmetry. apply app_nil_r. Qed.

Lemma grows_bind {A B} (m : M A) (f : A -> M B) :
  grows m -> (forall a, grows (f a)) -> grows (bind m f).
Proof.
  intros Hm Hf w b w' H. apply bind_done in H. destruct H as (a & w1 & H1 & H2).
  apply Hm in H1. destruct H1 as (e1 & E1).
  apply (Hf a) in H2. destruct H2 as (e2 & E2).
  exists (e1 ++ e2). rewrite E2, E1, app_assoc. reflexivity.
Qed.

Lemma grows_bus_only {A} (m : M A) Q : bus_only m Q -> grows m.
Proof.
  intros Hm w a w' H. apply Hm in H. destruct H as (evs & -> & _).
  exists evs. reflexivity.
Qed.

Lemma grows_lift {A} (o : option A) : grows (lift o).
Proof.
  intros w a w' H. destruct o; [|discriminate]. inversion H; subst.
  exists []. symmetry. apply app_nil_r.
Qed.

Lemma grows_printf_ret m (r : Z) : grows (bind (printf m) (fun _ => ret r)).
Proof.
  intros w a w' H. inversion H; subst. eexists. reflexivity.
Qed.

Lemma grows_start_playback h card fuel sample_rate :
  grows (start_playback h card fuel sample_rate).
Proof.
  intros w a w' H. apply start_playback_inv in H.
  destruct H as (evs & _ & -> & _). exists evs. reflexivity.
Qed.

(** X20: [sb16_init] enables the interrupt line before anything else, on
    every path: whenever it returns, also with -1 on a busy card, a failed
    reset or a rejected header, the first thing it has added to the bus
    history is the enabling of [SB16_IRQ_LINE]. *)
Theorem sb16_init_enables_irq_first h card fuel info_block w r w' :
  sb16_init h card fuel info_block w = Done r w' ->
  exists rest, trace w' = trace w ++ EnableIrq (SB16_IRQ_LINE h) :: rest.
Proof.
  rewrite sb16_init_enter. intros H.
  assert (G : grows (bind get_in_use (fun busy =>
    if negb (busy =? 0) then printf MsgInUse ;; ret (-1) else
    r <- sb16_reset h card fuel ;;
    if r =? -1 then printf MsgResetFailed ;; ret (-1) else
    match info_block with
    | None => printf MsgInfoInvalid ;; ret (-1)
    | Some blk =>
        tag <- lift (memcpy blk (WAV_MAGIC_LOC h) FOUR_B) ;;
        let wav_check := strrev (tag ++ [x00]) in
        if negb (load32 wav_check =? WAV_MAGIC h) then printf MsgNotWav ;; ret (-1) else
        format <- lift (load16 blk (WAV_FORMAT_LOC h)) ;;
        if negb (format =? 1) then printf MsgCompressed ;; ret (-1) else
        nchannels <- lift (load16 blk (WAV_NCHANNELS_LOC h)) ;;
        if negb (nchannels =? NCHANNELS) then printf MsgNot16Stereo ;; ret (-1) else
        bpsample <- lift (load16 blk (BPSAMPLE_LOC h)) ;;
        if negb (bpsample =? _16BITS) then printf MsgNot16Stereo ;; ret (-1) else
        sample_rate <- lift (load16 blk (SAMPLE_RATE_LOC h)) ;;
        start_playback h card fuel sample_rate
    end))).
  { apply grows_bind.
    { intros w0 a w1 E. inversion E; subst. exists []. symmetry. apply app_nil_r. }
    intros busy. destruct (negb (busy =? 0)); [apply grows_printf_ret|].
    apply grows_bind; [apply (grows_bus_only _ _ (sb16_reset_bus h card fuel))|].
    intros rs. destruct (rs =? -1); [apply grows_printf_ret|].
    destruct info_block as [blk|]; [|apply grows_printf_ret].
    apply grows_bind; [apply grows_lift|]. intros tag. cbv zeta.
    destruct (negb _); [apply grows_printf_ret|].
    apply grows_bind; [apply grows_lift|]. intros format.
    destruct (negb _); [apply grows_printf_ret|].
    apply grows_bind; [apply grows_lift|]. intros nchannels.
    destruct (negb _); [apply grows_printf_ret|].
    apply grows_bind; [apply grows_lift|]. intros bpsample.
    destruct (negb _); [apply grows_printf_ret|].
    apply grows_bind; [apply grows_lift|]. intros sample_rate.
    apply grows_start_playback. }
  apply G in H. destruct H as (evs & E). exists evs.
  rewrite E. cbn [extend trace]. rewrite <- app_assoc. reflexivity.
Qed.

(** A rejected header on the example card. *)
Lemma sb16_init_enables_irq_first_witness :
  exists rest,
    trace (extend boot [EnableIrq 5; Outb 1 0x226; Outb 0 0x226;
                        Inb 0x22E 0xFF; Inb 0x22A 0xAA; Printf MsgCompressed])
    = trace boot ++ EnableIrq (SB16_IRQ_LINE sb16_at_220) :: rest.
Proof.
  apply (sb16_init_enables_irq_first sb16_at_220 card_ready 5
           (Some (wav_header x57 x11 x02 x44 xac x10)) boot (-1)).
  vm_compute. reflexivity.
Defined.

(** X21: the buffer address survives the way from [sb16_init], which
    returns it as an [int32_t], to [main], which takes it back as a
    [uint32_t]; the only address that [main] mistakes for the error value
    is 0xFFFFFFFF. *)
Theorem buffer_address_round_trip A :
  0 <= A < 2 ^ 32 ->
  u32 (sint32 A) = A /\ (sint32 A = -1 <-> A = 2 ^ 32 - 1).
Proof.
  unfold u32, sint32. change (2 ^ 32) with 4294967296.
  change (2 ^ 31) with 2147483648. intros HA.
  split; [|split; intros E]; Z.div_mod_to_equations; lia.
Qed.

Lemma buffer_address_round_trip_witness :
  u32 (sint32 0xC0130000) = 0xC0130000 /\
  (sint32 0xC0130000 = -1 <-> 0xC0130000 = 2 ^ 32 - 1).
Proof.
  apply (buffer_address_round_trip 0xC0130000). cbn. lia.
Defined.

(** ** Shutdown and the null header on a card that follows the protocol *)

(** C8 as the specification words it, "never fails, for every prior state
    it returns 0", does not hold on a card that never shows a byte to
    read: with no session active, [sb16_shutdown] does not return,
    whatever the iteration bound. *)
Lemma sb16_shutdown_may_not_return :
  ~ exists fuel r w',
      sb16_shutdown sb16_at_220 card_silent fuel boot = Done r w'.
Proof.
  intros (fuel & r & w' & H).
  unfold sb16_shutdown in H.
  rewrite (bind_hang _ _ _
             (sb16_reset_hangs sb16_at_220 card_silent fuel boot
                (fun t => eq_refl))) in H.
  discriminate H.
Qed.

(** In the middle of a session, busy and with status 0, on the strict
    card: the shutdown returns 0 with both globals at their baseline, and
    so does a second one. *)
Lemma sb16_shutdown_baseline_witness :
  let w' := {| in_use := 0; int_flag := 1;
               trace := trace mid_session ++
                        [Outb 1 0x226; Outb 0 0x226; Inb 0x22E 0x80; Inb 0x22A 0xAA] |} in
  let w'' := {| in_use := 0; int_flag := 1;
                trace := trace w' ++
                         [Outb 1 0x226; Outb 0 0x226; Inb 0x22E 0x80; Inb 0x22A 0xAA] |} in
  in_use mid_session = 1 /\ int_flag mid_session = 0 /\
  sb16_shutdown sb16_at_220 card_strict 5 mid_session = Done 0 w' /\
  in_use w' = 0 /\ int_flag w' = 1 /\
  sb16_shutdown sb16_at_220 card_strict 5 w' = Done 0 w'' /\
  in_use w'' = in_use w' /\ int_flag w'' = int_flag w'.
Proof.
  intros w' w''.
  assert (B : budget_ok sb16_at_220 5) by (unfold budget_ok; cbn; lia).
  destruct (sb16_shutdown_baseline sb16_at_220 card_strict 5 mid_session)
    as (H1 & _ & H3).
  assert (R1 : sb16_shutdown sb16_at_220 card_strict 5 mid_session = Done 0 w').
  { apply (H3 B (extend mid_session
                   [Outb 1 0x226; Outb 0 0x226; Inb 0x22E 0x80; Inb 0x22A 0xAA])).
    left. exists 1%nat. split; [cbn; lia|].
    exists (pulsed sb16_at_220 mid_session).
    split; [lia|]. split; [reflexivity | vm_compute; reflexivity]. }
  assert (R2 : sb16_shutdown sb16_at_220 card_strict 5 w' = Done 0 w'')
    by (vm_compute; reflexivity).
  destruct (H1 0 w' R1) as (_ & Hu & Hi & Hagain).
  destruct (Hagain 0 w'' R2) as (_ & Hu2 & Hi2).
  split; [reflexivity|]. split; [reflexivity|]. split; [exact R1|].
  split; [exact Hu|]. split; [exact Hi|]. split; [exact R2|].
  split; [exact Hu2 | exact Hi2].
Defined.

